(** * Data Preview: ingestion and normalisation layer

    A shallow embedding of [src/data.preview.ts] (the [DataPreview] class and
    the [dataTypes] table of [config.ts]) together with the properties of its
    decoders, of the row flattener and of [refresh].

    Conventions of the embedding:
    - JavaScript values are the inductive [value]; an object is the list of
      its own enumerable string-keyed properties in the order in which
      [Object.keys] enumerates them (array-index keys first, ascending, then
      the other keys in creation order).  Prototype lookups and accessor
      properties are outside the model.
    - JavaScript numbers are carried around by this code and never computed
      with; they are represented by their integer payload.
    - Arrays that the class allocates, returns or captures in closures live in
      a store and are handled by reference.
    - Library calls that can fail return an [outcome]; methods of the class
      run in the monad [M] that threads the session state, collects the calls
      made to the host (log, notices, messages to the webview) and propagates
      thrown errors. *)

From stdpp Require Import base list strings gmap pretty.
From Stdlib Require Import ZArith Lia Ascii.

Local Open Scope string_scope.
Local Open Scope list_scope.

(** ** JavaScript values *)

(** What kind of object a reference points to.  Arrays, typed arrays and
    dates all answer ['object'] to [typeof]. *)
Inductive obj_class : Type :=
  | PlainObject
  | ArrayObject
  | DateObject (time : Z).

#[local] Unset Elimination Schemes.
Inductive value : Type :=
  | VUndefined
  | VNull
  | VBool (b : bool)
  | VNum (n : Z)
  | VStr (s : string)
  | VObj (c : obj_class) (ps : list (string * value)).
#[local] Set Elimination Schemes.

Abbreviation props := (list (string * value)).

(** Thrown values.  The libraries and the runtime throw [Error] objects. *)
Inductive js_error : Type :=
  | TypeError (message : string)
  | Error (message : string).

Definition error_message (e : js_error) : string :=
  match e with TypeError m | Error m => m end.

Inductive outcome (A : Type) : Type :=
  | Ok (a : A)
  | Throw (e : js_error).
Arguments Ok {A} a.
Arguments Throw {A} e.

(** [typeof v === 'object' && v !== null] *)
Definition is_nested (v : value) : bool :=
  match v with
  | VObj _ _ => true
  | _ => false
  end.

(** *** Property keys and their enumeration order *)

Definition digit_of (c : ascii) : option N :=
  let n := N_of_ascii c in
  if ((48 <=? n) && (n <=? 57))%N then Some (n - 48)%N else None.

Fixpoint parse_digits (s : string) (acc : N) : option N :=
  match s with
  | EmptyString => Some acc
  | String c s' =>
      match digit_of c with
      | Some d => parse_digits s' (10 * acc + d)%N
      | None => None
      end
  end.

(** A key is an array index when it is the canonical decimal form of an
    integer below [2^32 - 1]. *)
Definition array_index (k : string) : option N :=
  match k with
  | EmptyString => None
  | String c rest =>
      if Ascii.eqb c "0" && negb (String.eqb rest "") then None
      else match parse_digits k 0 with
           | Some n => if (n <? 2 ^ 32 - 1)%N then Some n else None
           | None => None
           end
  end.

(** [index_key i] is the property key of the [i]-th element of an array. *)
Definition index_key (i : nat) : string := pretty i.

(** The array [[e0, e1, ...]] seen as an object. *)
Definition array_props (es : list value) : props :=
  imap (fun i e => (index_key i, e)) es.

Definition VArr (es : list value) : value := VObj ArrayObject (array_props es).

(** The indexed characters of a primitive string, as [Object.keys] sees
    them. *)
Fixpoint string_props (i : nat) (s : string) : props :=
  match s with
  | EmptyString => []
  | String c s' => (index_key i, VStr (String c EmptyString)) :: string_props (S i) s'
  end.

(** Own enumerable properties of a value that is not [null] or [undefined]. *)
Definition own_props (v : value) : props :=
  match v with
  | VObj _ ps => ps
  | VStr s => string_props 0 s
  | _ => []
  end.

Definition has_own (o : props) (k : string) : bool :=
  existsb (fun p => String.eqb p.1 k) o.


(** Assignment to an existing property keeps its place in the enumeration. *)
Fixpoint obj_update (o : props) (k : string) (v : value) : props :=
  match o with
  | [] => []
  | (k', v') :: o' =>
      if String.eqb k' k then (k', v) :: o' else (k', v') :: obj_update o' k v
  end.

(** A new array-index key goes before the first key that is a larger index
    or is not an index at all. *)
Fixpoint insert_index (i : N) (k : string) (v : value) (o : props) : props :=
  match o with
  | [] => [(k, v)]
  | (k', v') :: o' =>
      match array_index k' with
      | Some j =>
          if (i <? j)%N then (k, v) :: o
          else (k', v') :: insert_index i k v o'
      | None => (k, v) :: o
      end
  end.

(** Creation of a property that the object does not have yet. *)
Definition obj_define (o : props) (k : string) (v : value) : props :=
  match array_index k with
  | Some i => insert_index i k v o
  | None => o ++ [(k, v)]
  end.

(** [o[k] = v] *)
Definition obj_set (o : props) (k : string) (v : value) : props :=
  if has_own o k then obj_update o k v else obj_define o k v.

(** [Object.assign(target, source)] *)
Definition Object_assign (target source : props) : props :=
  fold_left (fun t p => obj_set t p.1 p.2) source target.

(** ** The row flattener *)

Definition null_to_object : js_error :=
  TypeError "Cannot convert undefined or null to object".

(** [flattenObject(obj)], lines 474-484. *)
Fixpoint flattenObject (obj : value) : outcome value :=
  match obj with
  | VUndefined | VNull => Throw null_to_object
  | VObj _ ps =>
      (fix forEach (keys : props) (flatObject : props) : outcome value :=
         match keys with
         | [] => Ok (VObj PlainObject flatObject)
         | (key, v) :: keys' =>
             if is_nested v then
               match flattenObject v with
               | Ok inner => forEach keys' (Object_assign flatObject (own_props inner))
               | Throw e => Throw e
               end
             else forEach keys' (obj_set flatObject key v)
         end) ps []
  | VStr s => Ok (VObj PlainObject (Object_assign [] (string_props 0 s)))
  | VBool _ | VNum _ => Ok (VObj PlainObject [])
  end.


(** The loop of [flattenObject] over the keys, with the recursive call as a
    parameter; [flattenObject (VObj c ps)] unfolds to it. *)
Definition forEach_key (flatten : value -> outcome value) :=
  fix forEach (keys : props) (flatObject : props) : outcome value :=
    match keys with
    | [] => Ok (VObj PlainObject flatObject)
    | (key, v) :: keys' =>
        if is_nested v then
          match flatten v with
          | Ok inner => forEach keys' (Object_assign flatObject (own_props inner))
          | Throw e => Throw e
          end
        else forEach keys' (obj_set flatObject key v)
    end.

(** *** Objects as the runtime keeps them *)

(** [key_before k1 k2]: the enumeration may list [k1] ahead of [k2]. *)
Definition key_before (k1 k2 : string) : bool :=
  match array_index k1, array_index k2 with
  | Some a, Some b => (a <=? b)%N
  | Some _, None => true
  | None, Some _ => false
  | None, None => true
  end.

Fixpoint keys_ordered (ks : list string) : bool :=
  match ks with
  | [] => true
  | k :: ks' =>
      negb (existsb (String.eqb k) ks') && forallb (key_before k) ks'
      && keys_ordered ks'
  end.

(** The property list of an object has no key twice and lists the keys in
    enumeration order. *)
Definition well_formed (o : props) : bool := keys_ordered (o.*1).

(** No property holds a non-null object. *)
Definition is_flat (o : props) : bool :=
  forallb (fun p => negb (is_nested p.2)) o.

(** ** Strings, as the code slices them *)

(** [s.indexOf(c)]: position of the first occurrence, [-1] when absent. *)
Fixpoint indexOf (s : string) (c : ascii) : Z :=
  match s with
  | EmptyString => (-1)%Z
  | String a s' =>
      if Ascii.eqb a c then 0%Z
      else let r := indexOf s' c in
           if (r <? 0)%Z then (-1)%Z else (r + 1)%Z
  end.

(** [s.lastIndexOf(c)]: position of the last occurrence, [-1] when absent. *)
Fixpoint lastIndexOf (s : string) (c : ascii) : Z :=
  match s with
  | EmptyString => (-1)%Z
  | String a s' =>
      let r := lastIndexOf s' c in
      if (0 <=? r)%Z then (r + 1)%Z
      else if Ascii.eqb a c then 0%Z else (-1)%Z
  end.

Fixpoint string_drop (n : nat) (s : string) : string :=
  match n, s with
  | O, _ => s
  | S n', String _ s' => string_drop n' s'
  | S _, EmptyString => EmptyString
  end.

Fixpoint string_take (n : nat) (s : string) : string :=
  match n, s with
  | S n', String a s' => String a (string_take n' s')
  | _, _ => EmptyString
  end.

(** [s.substr(start)]: a negative [start] counts from the end. *)
Definition substr (s : string) (start : Z) : string :=
  let len := Z.of_nat (String.length s) in
  let from := if (start <? 0)%Z then Z.max (len + start) 0 else Z.min start len in
  string_drop (Z.to_nat from) s.

(** [s.substring(0, stop)] for [0 <= stop]. *)
Definition substring0 (s : string) (stop : Z) : string :=
  string_take (Z.to_nat stop) s.

(** [switch] cases that share a body. *)
Definition case_of (x : string) (labels : list string) : bool :=
  existsb (String.eqb x) labels.

(** ** Configuration ([config.ts]) *)

Module LogLevel.
Inductive t : Type := Debug | Warn | Info | Error.
Definition eqb (a b : t) : bool :=
  match a, b with
  | Debug, Debug | Warn, Warn | Info, Info | Error, Error => true
  | _, _ => false
  end.
End LogLevel.

Definition logLevel : LogLevel.t := LogLevel.Info.

(** Arrow type names to data view types, lines 572-585. *)
Definition dataTypes : gmap string string :=
  list_to_map
    [ ("Binary", "string");
      ("Bool", "boolean");
      ("Date", "date");
      ("Dictionary", "string");
      ("Float32", "float");
      ("Float64", "float");
      ("Int8", "integer");
      ("Int16", "integer");
      ("Int32", "integer");
      ("Int64", "integer");
      ("Timestamp", "datetime");
      ("Utf8", "string") ].

(** [config.dataTypes[fieldType]] *)
Definition dataTypes_at (fieldType : string) : value :=
  match dataTypes !! fieldType with
  | Some t => VStr t
  | None => VUndefined
  end.

(** The type mapping applied to each schema field, lines 392-397: the
    callback's [fieldType] after the optional truncation, looked up in the
    table. *)
Definition mapType (fieldType : string) : value :=
  let typesIndex := indexOf fieldType "<" in
  let fieldType :=
    if (0 <? typesIndex)%Z then substring0 fieldType typesIndex else fieldType in
  dataTypes_at fieldType.


(** ** Session state, host calls and the method monad *)

Record Uri : Type := { fsPath : string; uri_toString : string }.

(** Messages posted to the webview. *)
Inductive message : Type :=
  | RefreshMessage (fileName uri : string) (config schema data : value)
  | ErrorMessage (error : js_error).

(** Calls made to the host, in the order in which they happen.  The extra
    arguments of [logMessage] are not recorded. *)
Inductive host_call : Type :=
  | Reveal
  | LogMessage (level : LogLevel.t) (text : string)
  | ShowErrorMessage (text : string)
  | ShowInformationMessage (text : string)
  | PostMessage (m : message).

Abbreviation ref := nat.

(** Variables shared by the three listeners that [getAvroData] subscribes:
    [dataRows] and [rows] hold references to arrays, [rows] is reassigned by
    the ['end'] listener. *)
Record AvroClosure : Type := {
  dataRows : ref;
  dataSchema : value;
  rows : ref
}.

Record State : Type := {
  _uri : Uri;
  _fileName : string;
  _schema : value;
  _config : value;
  arrays : list (list value);
  decoders : list AvroClosure
}.

Definition M (A : Type) : Type := State -> outcome A * State * list host_call.

Definition ret {A} (a : A) : M A := fun st => (Ok a, st, []).

Definition bind {A B} (m : M A) (k : A -> M B) : M B :=
  fun st =>
    match m st with
    | (Ok a, st1, calls1) =>
        let '(r, st2, calls2) := k a st1 in (r, st2, calls1 ++ calls2)
    | (Throw e, st1, calls1) => (Throw e, st1, calls1)
    end.

Definition throw {A} (e : js_error) : M A := fun st => (Throw e, st, []).

(** [try { body } catch (error) { handler }] *)
Definition try_catch {A} (body : M A) (handler : js_error -> M A) : M A :=
  fun st =>
    match body st with
    | (Ok a, st1, calls1) => (Ok a, st1, calls1)
    | (Throw e, st1, calls1) =>
        let '(r, st2, calls2) := handler e st1 in (r, st2, calls1 ++ calls2)
    end.

Definition lift {A} (o : outcome A) : M A := fun st => (o, st, []).
Definition get_state : M State := fun st => (Ok st, st, []).
Definition put_state (st : State) : M unit := fun _ => (Ok tt, st, []).
Definition call (c : host_call) : M unit := fun st => (Ok tt, st, [c]).

Declare Scope M_scope.
Delimit Scope M_scope with M.
Notation "x <- m ;; k" := (bind m (fun x => k))
  (at level 100, m at next level, right associativity) : M_scope.
Notation "m ;; k" := (bind m (fun _ => k))
  (at level 100, right associativity) : M_scope.
Local Open Scope M_scope.

Definition logMessage (level : LogLevel.t) (text : string) : M unit :=
  call (LogMessage level text).
Definition postMessage (m : message) : M unit := call (PostMessage m).

Definition with_schema (st : State) (v : value) : State :=
  {| _uri := _uri st; _fileName := _fileName st; _schema := v;
     _config := _config st; arrays := arrays st; decoders := decoders st |}.

Definition with_arrays (st : State) (a : list (list value)) : State :=
  {| _uri := _uri st; _fileName := _fileName st; _schema := _schema st;
     _config := _config st; arrays := a; decoders := decoders st |}.

Definition with_decoders (st : State) (d : list AvroClosure) : State :=
  {| _uri := _uri st; _fileName := _fileName st; _schema := _schema st;
     _config := _config st; arrays := arrays st; decoders := d |}.

Definition set_schema (v : value) : M unit :=
  st <- get_state ;; put_state (with_schema st v).

Definition set_arrays (a : list (list value)) : M unit :=
  st <- get_state ;; put_state (with_arrays st a).

Definition set_decoders (d : list AvroClosure) : M unit :=
  st <- get_state ;; put_state (with_decoders st d).

(** The array a reference points to. *)
Definition array_at (st : State) (r : ref) : list value :=
  default [] (arrays st !! r).

(** A new array object. *)
Definition alloc (a : list value) : M ref :=
  st <- get_state ;;
  set_arrays (arrays st ++ [a]) ;;
  ret (length (arrays st)).

Definition read (r : ref) : M (list value) :=
  st <- get_state ;; ret (array_at st r).

(** [r[i] = v] for [i] below the length of the array. *)
Definition array_set (r : ref) (i : nat) (v : value) : M unit :=
  st <- get_state ;;
  set_arrays (<[r := <[i := v]> (array_at st r)]> (arrays st)).

(** [r.push(v)] *)
Definition array_push (r : ref) (v : value) : M unit :=
  st <- get_state ;;
  set_arrays (<[r := array_at st r ++ [v]]> (arrays st)).

(** ** Library objects *)

(** [apache-arrow]: a schema field with its name and [type.toString()], a
    column with its accessor, a table. *)
Record Field : Type := { name : string; type_toString : string }.

Record Column : Type := { get : nat -> value }.

Module Table.
Record t : Type := {
  length : nat;
  schema_fields : list Field;
  getColumnAt : nat -> option Column
}.
End Table.

(** [xlsx]: the options passed to [readFile]. *)
Inductive xlsx_type : Type := binary | file.
Record ParsingOptions : Type := { type : xlsx_type; cellDates : bool }.

(** [avsc]: what a block decoder emits. *)
Inductive avro_event : Type :=
  | OnMetadata (type : value)
  | OnData (data : value)
  | OnEnd.

(** What [getFileData] hands to [refresh]: [null], the text of the file, or
    a reference to an array of rows. *)
Inductive file_data : Type :=
  | DataNull
  | DataText (text : string)
  | DataRows (r : ref).

Definition null_length : js_error :=
  TypeError "Cannot read property 'length' of null".

Definition null_get : js_error :=
  TypeError "Cannot read property 'get' of null".

(** [for (let i = from; i < from + count; ++i) body(i)] *)
Fixpoint for_loop (body : nat -> M unit) (from count : nat) : M unit :=
  match count with
  | O => ret tt
  | S count' => body from ;; for_loop body (S from) count'
  end.

(** [xs.map(f)] for a callback that may throw. *)
Fixpoint map_outcome {A B} (f : A -> outcome B) (xs : list A) : outcome (list B) :=
  match xs with
  | [] => Ok []
  | x :: xs' =>
      match f x with
      | Ok y =>
          match map_outcome f xs' with
          | Ok ys => Ok (y :: ys)
          | Throw e => Throw e
          end
      | Throw e => Throw e
      end
  end.

(** ** The [DataPreview] class *)

Section DataPreview.

(** The [path], [fs], [xlsx] and [apache-arrow] calls the class makes. *)
Variable path_dirname : string -> string.
Variable path_join : string -> string -> string.
Variable existsSync : string -> bool.
Variable readFileSync_utf8 : string -> outcome string.
Variable readFileSync : string -> outcome (list Byte.byte).
Variable Sheet : Type.

Record WorkBook : Type := {
  SheetNames : list string;
  Sheets : gmap string Sheet
}.

Variable xlsx_readFile : string -> ParsingOptions -> outcome WorkBook.
Variable sheet_to_json : option Sheet -> outcome (list value).
Variable Table_from : list Byte.byte -> outcome Table.t.

(** [getExcelData(workbook)], lines 347-368. *)
Definition getExcelData (workbook : WorkBook) : M ref :=
  st <- get_state ;;
  logMessage LogLevel.Debug "getExcelData(): sheetNames:" ;;
  rows <- alloc [] ;;
  match SheetNames workbook with
  | firstSheetName :: _ =>
      let worksheet := Sheets workbook !! firstSheetName in
      converted <- lift (sheet_to_json worksheet) ;;
      rows <- alloc converted ;;
      logMessage LogLevel.Debug
        ("getExcelData(): " +:+ _fileName st +:+ ":" +:+ firstSheetName
           +:+ " records count:") ;;
      (if (0 <? length converted)%nat then
         logMessage LogLevel.Debug
           ("getExcelData(): " +:+ _fileName st +:+ ":" +:+ firstSheetName
              +:+ " 1st row:")
       else ret tt) ;;
      ret rows
  | [] => ret rows
  end.

(** [getBinaryExcelData(dataFilePath)], lines 319-326. *)
Definition getBinaryExcelData (dataFilePath : string) : M ref :=
  workbook <- lift (xlsx_readFile dataFilePath {| type := binary; cellDates := true |}) ;;
  getExcelData workbook.

(** [getTextExcelData(dataFilePath)], lines 333-340. *)
Definition getTextExcelData (dataFilePath : string) : M ref :=
  workbook <- lift (xlsx_readFile dataFilePath {| type := file; cellDates := true |}) ;;
  getExcelData workbook.

(** The body of the row loop of [getArrowData], lines 381-385: the
    [forEach] over the field names fills [proto]. *)
Fixpoint forEach_field (dataTable : Table.t) (i : nat) (fields : list string)
    (index : nat) (proto : props) : outcome props :=
  match fields with
  | [] => Ok proto
  | fieldName :: fields' =>
      match Table.getColumnAt dataTable index with
      | Some column =>
          forEach_field dataTable i fields' (S index)
            (obj_set proto fieldName (get column i))
      | None => Throw null_get
      end
  end.

(** The schema built by lines 390-398. *)
Definition arrow_schema (fields : list Field) : props :=
  fold_left (fun schema field =>
               obj_set schema (name field) (mapType (type_toString field)))
            fields [].

(** [logArrowDataStats(dataTable)], lines 411-419. *)
Definition logArrowDataStats (dataTable : Table.t) : M unit :=
  if LogLevel.eqb logLevel LogLevel.Debug then
    logMessage LogLevel.Debug "logArrowDataStats(): Arrow table schema:" ;;
    logMessage LogLevel.Debug "logArrowDataStats(): data view schema:" ;;
    logMessage LogLevel.Debug "logArrowDataStats(): records count:"
  else ret tt.

(** [getArrowData(dataFilePath)], lines 375-405. *)
Definition getArrowData (dataFilePath : string) : M ref :=
  dataBuffer <- lift (readFileSync dataFilePath) ;;
  dataTable <- lift (Table_from dataBuffer) ;;
  rows <- alloc (replicate (Table.length dataTable) VUndefined) ;;
  let fields := map name (Table.schema_fields dataTable) in
  n <- (a <- read rows ;; ret (length a)) ;;
  for_loop (fun i =>
              proto <- lift (forEach_field dataTable i fields 0 []) ;;
              array_set rows i (VObj PlainObject proto)) 0 n ;;
  set_schema (VObj PlainObject (arrow_schema (Table.schema_fields dataTable))) ;;
  logArrowDataStats dataTable ;;
  ret rows.

(** [logAvroDataStats(dataSchema, dataRows)], lines 454-467. *)
Definition logAvroDataStats (dataSchema : value) (dataRows : list value) : M unit :=
  if LogLevel.eqb logLevel LogLevel.Debug then
    logMessage LogLevel.Debug "logAvroDataStats(): data view schema:" ;;
    logMessage LogLevel.Debug "logAvroDataStats(): records count:" ;;
    (if (0 <? length dataRows)%nat then
       logMessage LogLevel.Debug "logAvroDataStats(): 1st row:"
     else ret tt)
  else ret tt.

(** [getAvroData(dataFilePath)], lines 426-447: allocates the two arrays,
    subscribes the listeners and returns the array [rows] points to at
    that time. *)
Definition getAvroData (dataFilePath : string) : M ref :=
  dataRows <- alloc [] ;;
  rows <- alloc [] ;;
  st <- get_state ;;
  set_decoders (decoders st ++
    [{| dataRows := dataRows; dataSchema := VObj PlainObject []; rows := rows |}]) ;;
  ret rows.

(** The listeners of the block decoder number [d], lines 431-445. *)
Definition on_metadata (d : nat) (type : value) : M unit :=
  st <- get_state ;;
  match decoders st !! d with
  | Some c =>
      set_decoders (<[d := {| dataRows := dataRows c; dataSchema := type;
                              rows := rows c |}]> (decoders st))
  | None => ret tt
  end.

Definition on_data (d : nat) (data : value) : M unit :=
  st <- get_state ;;
  match decoders st !! d with
  | Some c => array_push (dataRows c) data
  | None => ret tt
  end.

Definition on_end (d : nat) : M unit :=
  st <- get_state ;;
  match decoders st !! d with
  | Some c =>
      collected <- read (dataRows c) ;;
      flat <- lift (map_outcome flattenObject collected) ;;
      mapped <- alloc flat ;;
      set_decoders (<[d := {| dataRows := dataRows c; dataSchema := dataSchema c;
                              rows := mapped |}]> (decoders st)) ;;
      now_rows <- read mapped ;;
      logAvroDataStats (dataSchema c) now_rows ;;
      st' <- get_state ;;
      postMessage (RefreshMessage (_fileName st') (uri_toString (_uri st'))
                     (_config st') (_schema st') (VArr now_rows))
  | None => ret tt
  end.

(** Delivery of one event of the block decoder [d] to its listeners. *)
Definition emit (d : nat) (ev : avro_event) : M unit :=
  match ev with
  | OnMetadata type => on_metadata d type
  | OnData data => on_data d data
  | OnEnd => on_end d
  end.

Fixpoint emit_all (d : nat) (evs : list avro_event) : M unit :=
  match evs with
  | [] => ret tt
  | ev :: evs' => emit d ev ;; emit_all d evs'
  end.

(** [getFileData(filePath)], lines 265-312. *)
Definition getFileData (filePath : string) : M file_data :=
  st <- get_state ;;
  let data := DataNull in
  let dataFilePath := path_join (path_dirname (fsPath (_uri st))) filePath in
  if negb (existsSync dataFilePath) then
    logMessage LogLevel.Error "getFileData():" ;;
    call (ShowErrorMessage (filePath +:+ " doesn't exist!")) ;;
    ret data
  else
    let dataFileExt := substr filePath (lastIndexOf filePath ".") in
    if case_of dataFileExt [".csv"; ".tsv"; ".txt"; ".tab"; ".json"] then
      text <- lift (readFileSync_utf8 dataFilePath) ;;
      ret (DataText text)
    else if case_of dataFileExt
              [".xls"; ".xlsb"; ".xlsx"; ".xlsm"; ".slk"; ".ods"; ".prn"] then
      r <- getBinaryExcelData dataFilePath ;;
      ret (DataRows r)
    else if case_of dataFileExt [".dif"; ".xml"; ".html"] then
      r <- getTextExcelData dataFilePath ;;
      ret (DataRows r)
    else if case_of dataFileExt [".arrow"] then
      r <- getArrowData dataFilePath ;;
      ret (DataRows r)
    else if case_of dataFileExt [".avro"] then
      r <- getAvroData dataFilePath ;;
      logMessage LogLevel.Debug "getFileData(): Avro data:" ;;
      ret (DataRows r)
    else if case_of dataFileExt [".parquet"] then
      call (ShowInformationMessage "Parquet data format support coming soon!") ;;
      ret data
    else ret data.

(** [data.length] *)
Definition data_length (data : file_data) : M nat :=
  match data with
  | DataNull => throw null_length
  | DataText text => ret (String.length text)
  | DataRows r => a <- read r ;; ret (length a)
  end.

(** The value of [data] as it is serialised into a message. *)
Definition data_value (st : State) (data : file_data) : value :=
  match data with
  | DataNull => VNull
  | DataText text => VStr text
  | DataRows r => VArr (array_at st r)
  end.

(** [refresh()], lines 229-257. *)
Definition refresh : M unit :=
  call Reveal ;;
  st <- get_state ;;
  logMessage LogLevel.Debug "refresh(): file:" ;;
  try_catch
    (data <- getFileData (_fileName st) ;;
     len <- data_length data ;;
     if (0 <? len)%nat then
       st' <- get_state ;;
       postMessage (RefreshMessage (_fileName st') (uri_toString (_uri st'))
                      (_config st') (_schema st') (data_value st' data))
     else ret tt)
    (fun error =>
       logMessage LogLevel.Error ("refresh(): " +:+ error_message error) ;;
       postMessage (ErrorMessage error)).

End DataPreview.

Arguments SheetNames {Sheet} _.
Arguments Sheets {Sheet} _.

(** Messages posted to the webview among the host calls. *)
Definition posted (calls : list host_call) : list message :=
  omap (fun c => match c with PostMessage m => Some m | _ => None end) calls.

(** Notices shown to the user among the host calls. *)
Definition error_notices (calls : list host_call) : list string :=
  omap (fun c => match c with ShowErrorMessage t => Some t | _ => None end) calls.

(** What [refresh] does, by the result of [getFileData]. *)
Definition refresh_result (st : State)
    (r : outcome file_data * State * list host_call)
  : outcome unit * State * list host_call :=
  let head := [Reveal; LogMessage LogLevel.Debug "refresh(): file:"] in
  let failed e :=
    [LogMessage LogLevel.Error ("refresh(): " +:+ error_message e);
     PostMessage (ErrorMessage e)] in
  let sent st1 data :=
    [PostMessage (RefreshMessage (_fileName st1) (uri_toString (_uri st1))
                    (_config st1) (_schema st1) data)] in
  match r with
  | (Throw e, st1, calls1) => (Ok tt, st1, head ++ calls1 ++ failed e)
  | (Ok DataNull, st1, calls1) => (Ok tt, st1, head ++ calls1 ++ failed null_length)
  | (Ok (DataText text), st1, calls1) =>
      if (0 <? String.length text)%nat
      then (Ok tt, st1, head ++ calls1 ++ sent st1 (VStr text))
      else (Ok tt, st1, head ++ calls1)
  | (Ok (DataRows r), st1, calls1) =>
      if (0 <? length (array_at st1 r))%nat
      then (Ok tt, st1, head ++ calls1 ++ sent st1 (VArr (array_at st1 r)))
      else (Ok tt, st1, head ++ calls1)
  end.


(** The extensions that [getFileData] has a case for. *)
Definition supported_extensions : list string :=
  [".csv"; ".tsv"; ".txt"; ".tab"; ".json";
   ".xls"; ".xlsb"; ".xlsx"; ".xlsm"; ".slk"; ".ods"; ".prn";
   ".dif"; ".xml"; ".html"; ".arrow"; ".avro"; ".parquet"].

(** State a method call ends in, and the host calls it makes. *)
Definition state_after {A} (r : outcome A * State * list host_call) : State := r.1.2.
Definition calls_of {A} (r : outcome A * State * list host_call) : list host_call := r.2.

(** Events delivered to several block decoders, interleaved; a listener that
    throws does not stop the delivery of the later events. *)
Fixpoint deliver (trace : list (nat * avro_event)) (st : State) : State :=
  match trace with
  | [] => st
  | (d, ev) :: trace' => deliver trace' (state_after (emit d ev st))
  end.

(** Every array a listener pushes to has been allocated. *)
Definition refs_allocated (st : State) : Prop :=
  Forall (fun c => dataRows c < length (arrays st)) (decoders st).

(** The array [r] is empty and no listener pushes to it. *)
Definition untouched (r : ref) (st : State) : Prop :=
  arrays st !! r = Some [] /\ Forall (fun c => dataRows c <> r) (decoders st).

(** The entries that the row loop of [getArrowData] writes into the [i]-th
    row, in the words of the specification: the [i]-th value of every column,
    in schema field order. *)
Definition row_entries (dataTable : Table.t) (i : nat) : props :=
  imap (fun j field =>
          (name field,
           match Table.getColumnAt dataTable j with
           | Some column => get column i
           | None => VUndefined
           end))
       (Table.schema_fields dataTable).

(** ** A sample workspace *)

Module Sample.

Definition path_dirname (p : string) : string := "/data".
Definition path_join (dir f : string) : string := dir +:+ "/" +:+ f.

Definition existsSync (p : string) : bool :=
  case_of p ["/data/a.csv"; "/data/empty.csv"; "/data/notes.foo";
             "/data/book.xlsx"; "/data/broken.xlsx"; "/data/t.arrow";
             "/data/r.avro"].

Definition newline : string := String "010"%char EmptyString.

(** The text [a,b\n1,2\n]. *)
Definition a_csv : string := "a,b" +:+ newline +:+ "1,2" +:+ newline.

Definition readFileSync_utf8 (p : string) : outcome string :=
  if String.eqb p "/data/a.csv" then Ok a_csv
  else if String.eqb p "/data/empty.csv" then Ok ""
  else Throw (Error "ENOENT: no such file or directory").

Definition readFileSync (p : string) : outcome (list Byte.byte) :=
  if String.eqb p "/data/t.arrow" then Ok [Byte.x41; Byte.x52]
  else Throw (Error "ENOENT: no such file or directory").

(** A sheet is represented by the rows it converts to. *)
Definition Sheet : Type := list value.

Definition book : WorkBook Sheet :=
  {| SheetNames := ["First"; "Second"];
     Sheets := {[ "First" := [VObj PlainObject [("x", VNum 1)];
                              VObj PlainObject [("x", VNum 2)]];
                  "Second" := [VObj PlainObject [("y", VNum 3)]] ]} |}.

Definition empty_book : WorkBook Sheet := {| SheetNames := []; Sheets := ∅ |}.

Definition xlsx_readFile (p : string) (opts : ParsingOptions) : outcome (WorkBook Sheet) :=
  if String.eqb p "/data/book.xlsx" then Ok book
  else Throw (Error "Unsupported file").

Definition sheet_to_json (worksheet : option Sheet) : outcome (list value) :=
  match worksheet with
  | Some converted => Ok converted
  | None => Ok []
  end.

(** Three rows, an [Int32] column and a list column. *)
Definition table : Table.t :=
  {| Table.length := 3;
     Table.schema_fields :=
       [ {| name := "id"; type_toString := "Int32" |};
         {| name := "tags"; type_toString := "List<Utf8>" |} ];
     Table.getColumnAt := fun index =>
       match index with
       | 0 => Some {| get := fun i => VNum (Z.of_nat i) |}
       | 1 => Some {| get := fun i => VArr [VStr "t"] |}
       | _ => None
       end |}.

Definition Table_from (bytes : list Byte.byte) : outcome Table.t := Ok table.

(** A preview just opened on [fileName]. *)
Definition session (fileName : string) : State :=
  {| _uri := {| fsPath := "/data/" +:+ fileName;
                uri_toString := "file:///data/" +:+ fileName |};
     _fileName := fileName;
     _schema := VUndefined;
     _config := VObj PlainObject [];
     arrays := [];
     decoders := [] |}.

Definition getFileData : string -> M file_data :=
  getFileData path_dirname path_join existsSync readFileSync_utf8 readFileSync
    Sheet xlsx_readFile sheet_to_json Table_from.

Definition refresh : M unit :=
  refresh path_dirname path_join existsSync readFileSync_utf8 readFileSync
    Sheet xlsx_readFile sheet_to_json Table_from.

End Sample.

(** ** The rest of the class, and notions used to describe it *)



(** [s] contains the character [c]. *)
Fixpoint has_char (c : ascii) (s : string) : bool :=
  match s with
  | EmptyString => false
  | String a s' => Ascii.eqb a c || has_char c s'
  end.


(** No two listeners push to the same array, and the arrays they push to
    are allocated. *)
Definition closures_ok (st : State) : Prop :=
  NoDup (dataRows <$> decoders st) /\ refs_allocated st.

(** What the session keeps across a call: its identity, its view
    configuration, the arrays and the subscribed decoders it had. *)
Definition session_kept (st st' : State) : Prop :=
  _uri st' = _uri st /\ _fileName st' = _fileName st /\ _config st' = _config st
  /\ arrays st `prefix_of` arrays st' /\ decoders st `prefix_of` decoders st'.

Definition with_config (st : State) (v : value) : State :=
  {| _uri := _uri st; _fileName := _fileName st; _schema := _schema st;
     _config := v; arrays := arrays st; decoders := decoders st |}.

(** What [dispose] calls: the preview manager, the panel, and the
    [dispose] method of a registered item. *)
Inductive disposal : Type :=
  | RemovePreview
  | DisposePanel
  | DisposeItem (item : nat).

(** The loop of [dispose], lines 492-497: while the array of disposables is
    not empty, its last entry is popped and, unless it is [undefined],
    disposed.  [None] when the fuel runs out before the array is empty. *)
Fixpoint dispose_while (fuel : nat) (_disposables : list (option nat))
  : option (list disposal * list (option nat)) :=
  match _disposables with
  | [] => Some ([], [])
  | _ :: _ =>
      match fuel with
      | O => None
      | S fuel' =>
          let item := List.last _disposables None in
          match dispose_while fuel' (removelast _disposables) with
          | Some (calls, remaining) =>
              Some (match item with
                    | Some i => DisposeItem i :: calls
                    | None => calls
                    end, remaining)
          | None => None
          end
      end
  end.

(** [dispose()], lines 489-498. *)
Definition dispose (fuel : nat) (_disposables : list (option nat))
  : option (list disposal * list (option nat)) :=
  match dispose_while fuel _disposables with
  | Some (calls, remaining) => Some (RemovePreview :: DisposePanel :: calls, remaining)
  | None => None
  end.

(** Messages that the webview sends to the extension. *)
Inductive webview_message : Type :=
  | RefreshCommand
  | ConfigCommand (config : value)
  | OtherCommand (command : string).

Section Webview.

Variable path_dirname : string -> string.
Variable path_join : string -> string -> string.
Variable existsSync : string -> bool.
Variable readFileSync_utf8 : string -> outcome string.
Variable readFileSync : string -> outcome (list Byte.byte).
Variable Sheet : Type.
Variable xlsx_readFile : string -> ParsingOptions -> outcome (WorkBook Sheet).
Variable sheet_to_json : option Sheet -> outcome (list value).
Variable Table_from : list Byte.byte -> outcome Table.t.

(** The listener of [onDidReceiveMessage], lines 162-177. *)
Definition onDidReceiveMessage (message : webview_message) : M unit :=
  match message with
  | RefreshCommand =>
      refresh path_dirname path_join existsSync readFileSync_utf8 readFileSync
        Sheet xlsx_readFile sheet_to_json Table_from
  | ConfigCommand config =>
      st <- get_state ;;
      put_state (with_config st config) ;;
      (if LogLevel.eqb logLevel LogLevel.Debug then
         logMessage LogLevel.Debug "configUpdate(): config:"
       else ret tt)
  | OtherCommand _ => ret tt
  end.

End Webview.

(** ** A second sample workspace *)

Module Shelf.

Definition existsSync (p : string) : bool :=
  case_of p ["/data/report.v2.csv"; "/data/README"; "/data/p.parquet";
             "/data/r.avro"; "/data/t.arrow"; "/data/torn.arrow";
             "/data/legacy.html"].

Definition readFileSync_utf8 (p : string) : outcome string :=
  if String.eqb p "/data/report.v2.csv" then Ok "n,m"
  else Throw (Error "ENOENT: no such file or directory").

Definition readFileSync (p : string) : outcome (list Byte.byte) :=
  if String.eqb p "/data/t.arrow" then Ok [Byte.x41]
  else if String.eqb p "/data/torn.arrow" then Ok [Byte.x00]
  else if String.eqb p "/data/none.arrow" then Ok [Byte.x30]
  else Throw (Error "ENOENT: no such file or directory").

(** No rows, one field, and no column for it. *)
Definition empty_table : Table.t :=
  {| Table.length := 0;
     Table.schema_fields := [ {| name := "a"; type_toString := "Int64" |} ];
     Table.getColumnAt := fun index => None |}.

(** Two rows, two fields, and no column for the second field. *)
Definition torn_table : Table.t :=
  {| Table.length := 2;
     Table.schema_fields :=
       [ {| name := "a"; type_toString := "Utf8" |};
         {| name := "b"; type_toString := "Bool" |} ];
     Table.getColumnAt := fun index =>
       match index with
       | 0 => Some {| get := fun i => VStr "v" |}
       | _ => None
       end |}.

Definition Table_from (bytes : list Byte.byte) : outcome Table.t :=
  match bytes with
  | [Byte.x41] => Ok Sample.table
  | [Byte.x00] => Ok torn_table
  | [Byte.x30] => Ok empty_table
  | _ => Throw (Error "Invalid Arrow file")
  end.

(** [legacy.html] parses as a workbook when it is read as a text file. *)
Definition xlsx_readFile (p : string) (opts : ParsingOptions)
  : outcome (WorkBook Sample.Sheet) :=
  match type opts with
  | file => if String.eqb p "/data/legacy.html" then Ok Sample.book
            else Throw (Error "Unsupported file")
  | binary => Throw (Error "Unsupported file")
  end.

Definition getFileData : string -> M file_data :=
  getFileData Sample.path_dirname Sample.path_join existsSync readFileSync_utf8
    readFileSync Sample.Sheet xlsx_readFile Sample.sheet_to_json Table_from.

Definition refresh : M unit :=
  refresh Sample.path_dirname Sample.path_join existsSync readFileSync_utf8
    readFileSync Sample.Sheet xlsx_readFile Sample.sheet_to_json Table_from.

Definition onDidReceiveMessage : webview_message -> M unit :=
  onDidReceiveMessage Sample.path_dirname Sample.path_join existsSync
    readFileSync_utf8 readFileSync Sample.Sheet xlsx_readFile Sample.sheet_to_json
    Table_from.

(** A preview of [r.avro] that was refreshed twice: two block decoders. *)
Definition two_decoders : State :=
  state_after (refresh (state_after (refresh (Sample.session "r.avro")))).

End Shelf.

(** * Properties *)

(** ** Objects and the row flattener *)

Lemma value_ind (P : value -> Prop) :
  P VUndefined -> P VNull -> (forall b, P (VBool b)) -> (forall n, P (VNum n)) ->
  (forall s, P (VStr s)) ->
  (forall c ps, Forall (fun p => P p.2) ps -> P (VObj c ps)) ->
  forall v, P v.
Proof.
  intros Hu Hn Hb Hnum Hs Ho.
  fix IH 1. intros [| | b | n | s | c ps].
  - exact Hu.
  - exact Hn.
  - apply Hb.
  - apply Hnum.
  - apply Hs.
  - apply Ho. induction ps as [|[k v] ps IHps]; constructor.
    + apply IH.
    + exact IHps.
Qed.

Lemma flattenObject_VObj c ps :
  flattenObject (VObj c ps) = forEach_key flattenObject ps [].
Proof. reflexivity. Qed.

Lemma string_eqb_true a b : String.eqb a b = true <-> a = b.
Proof. apply String.eqb_eq. Qed.

Lemma existsb_eqb_elem (k : string) (ks : list string) :
  existsb (String.eqb k) ks = true <-> k ∈ ks.
Proof.
  induction ks as [|k' ks IH]; simpl.
  - split; [discriminate | intros H; inversion H].
  - rewrite orb_true_iff, IH, string_eqb_true, elem_of_cons. tauto.
Qed.

Lemma has_own_elem (o : props) (k : string) :
  has_own o k = true <-> k ∈ o.*1.
Proof.
  unfold has_own. induction o as [|[k' v'] o IH]; simpl.
  - split; [discriminate | intros H; inversion H].
  - rewrite orb_true_iff, IH, string_eqb_true, elem_of_cons. split; intros [?|?]; auto.
Qed.

Lemma has_own_not_elem (o : props) (k : string) :
  has_own o k = false <-> k ∉ o.*1.
Proof.
  rewrite <- has_own_elem. destruct (has_own o k); split; congruence.
Qed.

Lemma forallb_true_Forall {A} (f : A -> bool) (l : list A) :
  forallb f l = true <-> Forall (fun x => f x = true) l.
Proof.
  induction l as [|x l IH]; simpl.
  - split; [constructor | done].
  - rewrite andb_true_iff, IH, Forall_cons. tauto.
Qed.

Lemma keys_ordered_cons k ks :
  keys_ordered (k :: ks) = true <->
  ((k ∉ ks) /\ Forall (fun k' => key_before k k' = true) ks /\ keys_ordered ks = true).
Proof.
  simpl. rewrite !andb_true_iff, negb_true_iff, forallb_true_Forall.
  rewrite <- existsb_eqb_elem.
  destruct (existsb (String.eqb k) ks); intuition congruence.
Qed.



Lemma keys_ordered_snoc ks k :
  array_index k = None -> k ∉ ks -> keys_ordered ks = true ->
  keys_ordered (ks ++ [k]) = true.
Proof.
  intros Hk. induction ks as [|k' ks IH]; intros Hn Hord.
  - reflexivity.
  - simpl app. apply keys_ordered_cons in Hord as (Hn' & Hall & Hord).
    apply keys_ordered_cons. split_and!.
    + rewrite elem_of_app, list_elem_of_singleton. intros [? | ->]; [done|].
      apply Hn. by left.
    + apply Forall_app. split; [done|]. constructor; [|constructor].
      unfold key_before. rewrite Hk. by destruct (array_index k').
    + apply IH; [|done]. intros ?. apply Hn. by right.
Qed.

Lemma keys_obj_update o k v : (obj_update o k v).*1 = o.*1.
Proof.
  induction o as [|[k' v'] o IH]; [done|]. simpl.
  destruct (String.eqb k' k); [done|].
  change (k' :: (obj_update o k v).*1 = k' :: o.*1). by rewrite IH.
Qed.

Lemma insert_index_perm i k v o : insert_index i k v o ≡ₚ (k, v) :: o.
Proof.
  induction o as [|[k' v'] o IH]; [done|]. simpl.
  destruct (array_index k') as [j|]; [|done].
  destruct (i <? j)%N; [done|]. rewrite IH. apply Permutation_swap.
Qed.

Lemma insert_index_ordered i k v o :
  array_index k = Some i -> k ∉ o.*1 -> well_formed o = true ->
  well_formed (insert_index i k v o) = true.
Proof.
  unfold well_formed. intros Hk. induction o as [|[k' v'] o IH]; intros Hn Hord.
  - reflexivity.
  - simpl in Hn. apply not_elem_of_cons in Hn as [Hne Hn].
    pose proof Hord as Hord0.
    simpl in Hord. apply keys_ordered_cons in Hord as (Hn' & Hall & Hord).
    simpl. destruct (array_index k') as [j|] eqn:Hk'.
    + destruct (i <? j)%N eqn:Hij.
      * change (keys_ordered (k :: (((k', v') :: o).*1)) = true).
        apply keys_ordered_cons. split_and!; [|simpl|done].
        { simpl. rewrite elem_of_cons. intros [?|?]; done. }
        apply N.ltb_lt in Hij. constructor.
        { unfold key_before. rewrite Hk, Hk'. apply N.leb_le. lia. }
        eapply Forall_impl; [exact Hall|]. intros x. unfold key_before.
        rewrite Hk, Hk'. destruct (array_index x); [|done].
        rewrite !N.leb_le. lia.
      * apply N.ltb_ge in Hij. simpl. apply keys_ordered_cons. split_and!.
        { rewrite (fmap_Permutation fst _ _ (insert_index_perm i k v o)).
          simpl. rewrite elem_of_cons. intros [?|?]; [congruence|done]. }
        { rewrite (fmap_Permutation fst _ _ (insert_index_perm i k v o)).
          simpl. constructor; [|done].
          unfold key_before. rewrite Hk, Hk'. by apply N.leb_le. }
        by apply IH.
    + change (keys_ordered (k :: (((k', v') :: o).*1)) = true).
      apply keys_ordered_cons. split_and!; [|simpl|done].
      { simpl. rewrite elem_of_cons. intros [?|?]; done. }
      constructor.
      { unfold key_before. by rewrite Hk, Hk'. }
      eapply Forall_impl; [exact Hall|]. intros x. unfold key_before.
      rewrite Hk, Hk'. by destruct (array_index x).
Qed.

Lemma obj_set_well_formed o k v :
  well_formed o = true -> well_formed (obj_set o k v) = true.
Proof.
  intros Hwf. unfold obj_set. destruct (has_own o k) eqn:Hown.
  - unfold well_formed. by rewrite keys_obj_update.
  - apply has_own_not_elem in Hown. unfold obj_define.
    destruct (array_index k) as [i|] eqn:Hk.
    + by apply insert_index_ordered.
    + unfold well_formed. rewrite fmap_app. by apply keys_ordered_snoc.
Qed.

Lemma elem_of_obj_update p o k v :
  p ∈ obj_update o k v -> p.2 = v \/ p ∈ o.
Proof.
  induction o as [|[k' v'] o IH]; simpl; [by right|].
  destruct (String.eqb k' k); rewrite !elem_of_cons.
  - intros [-> | ?]; [by left | right; by right].
  - intros [-> | ?]; [right; by left|].
    destruct IH as [?|?]; [done | by left | right; by right].
Qed.

Lemma elem_of_obj_set p o k v :
  p ∈ obj_set o k v -> p.2 = v \/ p ∈ o.
Proof.
  unfold obj_set, obj_define. destruct (has_own o k).
  - apply elem_of_obj_update.
  - destruct (array_index k).
    + rewrite insert_index_perm, elem_of_cons. intros [-> | ?]; [by left | by right].
    + rewrite elem_of_app, list_elem_of_singleton.
      intros [? | ->]; [by right | by left].
Qed.

Lemma is_flat_Forall o :
  is_flat o = true <-> Forall (fun p => is_nested p.2 = false) o.
Proof.
  unfold is_flat. rewrite forallb_true_Forall.
  apply Forall_iff. intros p. apply negb_true_iff.
Qed.

Lemma obj_set_flat o k v :
  is_nested v = false -> is_flat o = true -> is_flat (obj_set o k v) = true.
Proof.
  rewrite !is_flat_Forall, !Forall_forall. intros Hv Ho p Hp.
  apply elem_of_obj_set in Hp as [-> | Hp]; auto.
Qed.

Lemma Object_assign_invariant target source :
  well_formed target = true -> is_flat target = true -> is_flat source = true ->
  well_formed (Object_assign target source) = true
  /\ is_flat (Object_assign target source) = true.
Proof.
  unfold Object_assign. revert target.
  induction source as [|[k v] source IH]; intros target Hwf Hflat Hsrc; [done|].
  simpl in *. apply andb_true_iff in Hsrc as [Hv Hsrc].
  apply negb_true_iff in Hv.
  apply IH; [by apply obj_set_well_formed | by apply obj_set_flat | done].
Qed.




(** The flattener succeeds on every object, and what it returns is a
    well-formed flat plain object. *)
Lemma flattenObject_nested v :
  is_nested v = true ->
  exists flat, flattenObject v = Ok (VObj PlainObject flat)
               /\ well_formed flat = true /\ is_flat flat = true.
Proof.
  induction v as [| | | | |c ps IH] using value_ind; try discriminate.
  intros _. rewrite flattenObject_VObj.
  assert (Hloop : forall acc, well_formed acc = true -> is_flat acc = true ->
            exists flat, forEach_key flattenObject ps acc = Ok (VObj PlainObject flat)
                         /\ well_formed flat = true /\ is_flat flat = true).
  { induction ps as [|[k v] ps IHps]; intros acc Hwf Hflat; simpl.
    - by exists acc.
    - apply Forall_cons in IH as [Hv IH]. simpl in Hv.
      destruct (is_nested v) eqn:Hnest.
      + destruct (Hv eq_refl) as (inner & -> & Hwfi & Hflati). simpl.
        destruct (Object_assign_invariant acc inner) as [? ?]; auto.
      + apply IHps; [done | by apply obj_set_well_formed | by apply obj_set_flat]. }
  by apply Hloop.
Qed.




(** ** The method monad *)

Ltac unfold_M :=
  unfold bind, ret, throw, lift, get_state, put_state, call, logMessage,
    postMessage, set_schema, set_arrays, set_decoders, alloc, read, array_set,
    array_push, try_catch, state_after, calls_of in *.

Lemma posted_app a b : posted (a ++ b) = posted a ++ posted b.
Proof. apply omap_app. Qed.

Lemma bind_Ok {A B} (m : M A) (k : A -> M B) st a st1 calls1 :
  m st = (Ok a, st1, calls1) ->
  bind m k st = (let '(r, st2, calls2) := k a st1 in (r, st2, calls1 ++ calls2)).
Proof. intros H. unfold bind. by rewrite H. Qed.

Lemma bind_Throw {A B} (m : M A) (k : A -> M B) st e st1 calls1 :
  m st = (Throw e, st1, calls1) -> bind m k st = (Throw e, st1, calls1).
Proof. intros H. unfold bind. by rewrite H. Qed.

Lemma bind_run {A B} (m : M A) (k : A -> M B) st a st1 calls1 r st2 calls2 :
  m st = (Ok a, st1, calls1) -> k a st1 = (r, st2, calls2) ->
  bind m k st = (r, st2, calls1 ++ calls2).
Proof. intros Hm Hk. unfold bind. by rewrite Hm, Hk. Qed.

Lemma alloc_run a st :
  alloc a st = (Ok (length (arrays st)), with_arrays st (arrays st ++ [a]), []).
Proof. reflexivity. Qed.

Lemma lookup_alloc {A} (a : list A) (x : A) :
  (a ++ [x]) !! length a = Some x.
Proof. by rewrite lookup_app_r, Nat.sub_diag. Qed.

Lemma case_of_elem x labels : case_of x labels = true <-> x ∈ labels.
Proof. apply existsb_eqb_elem. Qed.

Lemma posted_refresh_result st r :
  posted (calls_of r) = [] ->
  posted (calls_of (refresh_result st r))
  = match r with
    | (Throw e, _, _) => [ErrorMessage e]
    | (Ok DataNull, _, _) => [ErrorMessage null_length]
    | (Ok (DataText text), st1, _) =>
        if (0 <? String.length text)%nat
        then [RefreshMessage (_fileName st1) (uri_toString (_uri st1))
                (_config st1) (_schema st1) (VStr text)]
        else []
    | (Ok (DataRows a), st1, _) =>
        if (0 <? length (array_at st1 a))%nat
        then [RefreshMessage (_fileName st1) (uri_toString (_uri st1))
                (_config st1) (_schema st1) (VArr (array_at st1 a))]
        else []
    end.
Proof.
  destruct r as [[[data|e] st1] calls1]; unfold calls_of, refresh_result; simpl;
    intros Hquiet.
  - destruct data as [|text|a].
    + simpl. by rewrite posted_app, Hquiet.
    + destruct (0 <? String.length text)%nat; simpl;
        by rewrite ?posted_app, Hquiet.
    + destruct (0 <? length (array_at st1 a))%nat; simpl;
        by rewrite ?posted_app, Hquiet.
  - by rewrite posted_app, Hquiet.
Qed.

Section Properties.

Variable path_dirname : string -> string.
Variable path_join : string -> string -> string.
Variable existsSync : string -> bool.
Variable readFileSync_utf8 : string -> outcome string.
Variable readFileSync : string -> outcome (list Byte.byte).
Variable Sheet : Type.
Variable xlsx_readFile : string -> ParsingOptions -> outcome (WorkBook Sheet).
Variable sheet_to_json : option Sheet -> outcome (list value).
Variable Table_from : list Byte.byte -> outcome Table.t.

Local Abbreviation getFileData_ :=
  (getFileData path_dirname path_join existsSync readFileSync_utf8 readFileSync
     Sheet xlsx_readFile sheet_to_json Table_from).
Local Abbreviation refresh_ :=
  (refresh path_dirname path_join existsSync readFileSync_utf8 readFileSync
     Sheet xlsx_readFile sheet_to_json Table_from).
Local Abbreviation getExcelData_ := (getExcelData Sheet sheet_to_json).
Local Abbreviation getArrowData_ := (getArrowData readFileSync Table_from).

Lemma refresh_unfold st :
  refresh_ st = refresh_result st (getFileData_ (_fileName st) st).
Proof.
  unfold refresh, refresh_result.
  unfold bind at 1. unfold call at 1. unfold bind at 1. unfold get_state at 1.
  unfold bind at 1. unfold logMessage at 1. unfold call at 1.
  unfold try_catch. unfold bind at 1.
  destruct (getFileData_ (_fileName st) st) as [[[data|e] st1] calls1].
  - destruct data as [|text|r]; unfold_M; simpl.
    + by rewrite app_nil_r.
    + destruct (0 <? String.length text)%nat; simpl; by rewrite ?app_nil_r.
    + destruct (0 <? length (array_at st1 r))%nat; simpl; by rewrite ?app_nil_r.
  - unfold_M; simpl. done.
Qed.

Lemma getFileData_missing filePath st :
  existsSync (path_join (path_dirname (fsPath (_uri st))) filePath) = false ->
  getFileData_ filePath st
  = (Ok DataNull, st,
     [LogMessage LogLevel.Error "getFileData():";
      ShowErrorMessage (filePath +:+ " doesn't exist!")]).
Proof.
  intros Hex. unfold getFileData. unfold bind at 1. unfold get_state at 1.
  rewrite Hex. reflexivity.
Qed.

Lemma getFileData_unsupported filePath st :
  existsSync (path_join (path_dirname (fsPath (_uri st))) filePath) = true ->
  case_of (substr filePath (lastIndexOf filePath ".")) supported_extensions = false ->
  getFileData_ filePath st = (Ok DataNull, st, []).
Proof.
  intros Hex Hext. unfold getFileData. unfold bind at 1. unfold get_state at 1.
  rewrite Hex. simpl negb. cbv iota.
  unfold case_of, supported_extensions in *.
  set (ext := substr filePath (lastIndexOf filePath ".")) in *.
  simpl in Hext. repeat (apply orb_false_iff in Hext as [?E Hext]).
  simpl.
  repeat match goal with
         | H : String.eqb ext _ = false |- _ => rewrite H; clear H
         end.
  reflexivity.
Qed.

Lemma getFileData_text filePath st text :
  existsSync (path_join (path_dirname (fsPath (_uri st))) filePath) = true ->
  case_of (substr filePath (lastIndexOf filePath "."))
    [".csv"; ".tsv"; ".txt"; ".tab"; ".json"] = true ->
  readFileSync_utf8 (path_join (path_dirname (fsPath (_uri st))) filePath) = Ok text ->
  getFileData_ filePath st = (Ok (DataText text), st, []).
Proof.
  intros Hex Hext Hread. unfold getFileData. unfold bind at 1. unfold get_state at 1.
  rewrite Hex. simpl negb. cbv iota. rewrite Hext.
  unfold_M. rewrite Hread. reflexivity.
Qed.

(** C9. For a file with one of the extensions [.csv], [.tsv], [.txt],
    [.tab], [.json], [getFileData] returns the text read from the file as
    it is, as one string; the session, and with it the schema, is left as
    it was, and [refresh] sends that same string (when it is not empty) as
    the data of the one message it posts. *)
Theorem getFileData_text_is_raw_content filePath st text :
  existsSync (path_join (path_dirname (fsPath (_uri st))) filePath) = true ->
  case_of (substr filePath (lastIndexOf filePath "."))
    [".csv"; ".tsv"; ".txt"; ".tab"; ".json"] = true ->
  readFileSync_utf8 (path_join (path_dirname (fsPath (_uri st))) filePath) = Ok text ->
  getFileData_ filePath st = (Ok (DataText text), st, [])
  /\ (filePath = _fileName st -> text <> "" ->
      state_after (refresh_ st) = st
      /\ posted (calls_of (refresh_ st))
         = [RefreshMessage (_fileName st) (uri_toString (_uri st)) (_config st)
              (_schema st) (VStr text)]).
Proof.
  intros Hex Hext Hread.
  pose proof (getFileData_text filePath st text Hex Hext Hread) as Hget.
  split; [exact Hget|]. intros -> Hne.
  rewrite refresh_unfold, Hget. unfold refresh_result.
  destruct text as [|c text]; [done|]. simpl. done.
Qed.

(** *** The decoders post nothing themselves *)

Lemma for_loop_calls body :
  (forall i st, calls_of (body i st) = []) ->
  forall count from st, calls_of (for_loop body from count st) = [].
Proof.
  intros Hbody. induction count as [|count IH]; intros from st; [done|].
  simpl. unfold bind. specialize (Hbody from st).
  destruct (body from st) as [[[[]|e] st1] calls1]; simpl in *; subst; [|done].
  specialize (IH (S from) st1).
  destruct (for_loop body (S from) count st1) as [[r st2] calls2]. by simpl in *.
Qed.

Lemma getExcelData_posts_nothing workbook st :
  posted (calls_of (getExcelData_ workbook st)) = [].
Proof.
  unfold getExcelData. unfold_M. simpl.
  destruct (SheetNames workbook) as [|first others]; simpl; [done|].
  destruct (sheet_to_json (Sheets workbook !! first)) as [converted|e]; simpl; [|done].
  by destruct (0 <? length converted)%nat.
Qed.

Lemma getArrowData_calls dataFilePath st :
  calls_of (getArrowData_ dataFilePath st) = [].
Proof.
  unfold getArrowData. unfold bind at 1. unfold lift at 1.
  destruct (readFileSync dataFilePath) as [dataBuffer|e]; [|done].
  unfold bind at 1. unfold lift at 1.
  destruct (Table_from dataBuffer) as [dataTable|e]; [|done].
  unfold bind at 1.
  destruct (alloc _ st) as [[[rows|e] st1] calls1] eqn:Halloc;
    unfold_M; simpl in Halloc; inversion Halloc; subst; clear Halloc.
  simpl.
  match goal with
  | |- context [for_loop ?body ?from ?count ?s] =>
      pose proof (for_loop_calls body) as Hloop;
      specialize (Hloop (fun i s' => ltac:(
        simpl; destruct (forEach_field dataTable i _ 0 []); reflexivity))
        count from s);
      destruct (for_loop body from count s) as [[[[]|e] st2] calls2]
  end; simpl in *; subst; done.
Qed.

Lemma getFileData_posts_nothing filePath st :
  posted (calls_of (getFileData_ filePath st)) = [].
Proof.
  unfold getFileData. unfold bind at 1. unfold get_state at 1.
  destruct (negb (existsSync _)); [done|]. cbv zeta.
  set (dataFilePath := path_join (path_dirname (fsPath (_uri st))) filePath).
  set (ext := substr filePath (lastIndexOf filePath ".")).
  destruct (case_of ext [".csv"; ".tsv"; ".txt"; ".tab"; ".json"]).
  { unfold_M. by destruct (readFileSync_utf8 dataFilePath). }
  destruct (case_of ext _).
  { unfold getBinaryExcelData. unfold bind at 1 2. unfold lift at 1.
    destruct (xlsx_readFile dataFilePath _) as [workbook|e]; [|done].
    pose proof (getExcelData_posts_nothing workbook st) as Hp.
    destruct (getExcelData_ workbook st) as [[[r|e] st1] calls1];
      unfold_M; simpl in *; by rewrite ?app_nil_r. }
  destruct (case_of ext _).
  { unfold getTextExcelData. unfold bind at 1 2. unfold lift at 1.
    destruct (xlsx_readFile dataFilePath _) as [workbook|e]; [|done].
    pose proof (getExcelData_posts_nothing workbook st) as Hp.
    destruct (getExcelData_ workbook st) as [[[r|e] st1] calls1];
      unfold_M; simpl in *; by rewrite ?app_nil_r. }
  destruct (case_of ext _).
  { unfold bind at 1.
    pose proof (getArrowData_calls dataFilePath st) as Hp.
    destruct (getArrowData_ dataFilePath st) as [[[r|e] st1] calls1];
      unfold_M; simpl in *; by subst. }
  destruct (case_of ext _); [done|].
  destruct (case_of ext _); done.
Qed.



(** A workbook that the parser rejects makes [getFileData] throw. *)
Lemma getFileData_malformed_workbook filePath st e :
  existsSync (path_join (path_dirname (fsPath (_uri st))) filePath) = true ->
  case_of (substr filePath (lastIndexOf filePath "."))
    [".xls"; ".xlsb"; ".xlsx"; ".xlsm"; ".slk"; ".ods"; ".prn"] = true ->
  xlsx_readFile (path_join (path_dirname (fsPath (_uri st))) filePath)
    {| type := binary; cellDates := true |} = Throw e ->
  getFileData_ filePath st = (Throw e, st, []).
Proof.
  intros Hex Hext Hread. unfold getFileData. unfold bind at 1. unfold get_state at 1.
  rewrite Hex. simpl negb. cbv iota zeta.
  destruct (case_of _ [".csv"; ".tsv"; ".txt"; ".tab"; ".json"]) eqn:Htext.
  { exfalso. unfold case_of in Hext, Htext.
    set (ext := substr filePath (lastIndexOf filePath ".")) in *.
    simpl in Hext.
    repeat (apply orb_true_iff in Hext as [Hext|Hext]); try discriminate;
      apply String.eqb_eq in Hext; rewrite Hext in Htext;
      vm_compute in Htext; discriminate. }
  rewrite Hext. unfold getBinaryExcelData. unfold_M. by rewrite Hread.
Qed.

(** *** Spreadsheets *)

(** C8. [getExcelData] returns the rows that [sheet_to_json] makes of the
    sheet registered under the first sheet name, whatever the other sheets
    are; for a workbook without sheets it returns an empty array and does
    not throw. *)
Theorem getExcelData_first_sheet_only workbook st :
  (SheetNames workbook = [] ->
   exists r st' calls,
     getExcelData_ workbook st = (Ok r, st', calls) /\ arrays st' !! r = Some [])
  /\ (forall firstSheetName others converted,
      SheetNames workbook = firstSheetName :: others ->
      sheet_to_json (Sheets workbook !! firstSheetName) = Ok converted ->
      exists r st' calls,
        getExcelData_ workbook st = (Ok r, st', calls)
        /\ arrays st' !! r = Some converted).
Proof.
  split.
  - intros Hnames. unfold getExcelData. rewrite Hnames. unfold_M. simpl.
    eexists _, _, _. split; [reflexivity|]. simpl. apply lookup_alloc.
  - intros firstSheetName others converted Hnames Hconv.
    unfold getExcelData. rewrite Hnames. unfold_M. simpl. rewrite Hconv.
    destruct (0 <? length converted)%nat; simpl;
      (eexists _, _, _; split; [reflexivity|]; simpl); apply lookup_alloc.
Qed.

(** *** Reading a property back *)







(** *** The columnar decoder *)

Lemma forEach_field_entries dataTable i fields index proto :
  (forall j, j < length fields -> is_Some (Table.getColumnAt dataTable (index + j))) ->
  forEach_field dataTable i (name <$> fields) index proto
  = Ok (Object_assign proto
          (imap (fun j field =>
                   (name field,
                    match Table.getColumnAt dataTable (index + j) with
                    | Some column => get column i
                    | None => VUndefined
                    end)) fields)).
Proof.
  revert index proto.
  induction fields as [|field fields IH]; intros index proto Hcols; [done|].
  simpl. destruct (Hcols 0) as [column Hcol]; [simpl; lia|].
  rewrite Nat.add_0_r in Hcol. rewrite Hcol.
  rewrite IH.
  - rewrite Nat.add_0_r, Hcol. unfold Object_assign. simpl. do 2 f_equal.
    apply imap_ext. intros j x _. simpl. by rewrite Nat.add_succ_r.
  - intros j Hj. rewrite Nat.add_succ_l, <- Nat.add_succ_r. apply Hcols. simpl. lia.
Qed.

Lemma forEach_field_row dataTable i :
  (forall j, j < length (Table.schema_fields dataTable) ->
             is_Some (Table.getColumnAt dataTable j)) ->
  forEach_field dataTable i (map name (Table.schema_fields dataTable)) 0 []
  = Ok (Object_assign [] (row_entries dataTable i)).
Proof.
  intros Hcols.
  exact (forEach_field_entries dataTable i (Table.schema_fields dataTable) 0 [] Hcols).
Qed.



Lemma with_arrays_id st : with_arrays st (arrays st) = st.
Proof. by destruct st. Qed.

Local Abbreviation row_body dataTable r :=
  (fun i =>
     proto <- lift (forEach_field dataTable i
                      (map name (Table.schema_fields dataTable)) 0 []) ;;
     array_set r i (VObj PlainObject proto)).

Lemma arrow_row_body dataTable r i st :
  (forall j, j < length (Table.schema_fields dataTable) ->
             is_Some (Table.getColumnAt dataTable j)) ->
  row_body dataTable r i st
  = (Ok tt,
     with_arrays st
       (<[r := <[i := VObj PlainObject (Object_assign [] (row_entries dataTable i))]>
                 (array_at st r)]> (arrays st)),
     []).
Proof.
  intros Hcols. unfold bind at 1. unfold lift at 1.
  by rewrite (forEach_field_row dataTable i Hcols).
Qed.

Lemma arrow_row_loop dataTable r count :
  (forall j, j < length (Table.schema_fields dataTable) ->
             is_Some (Table.getColumnAt dataTable j)) ->
  forall from st a,
    arrays st !! r = Some a -> from + count <= length a ->
    exists a',
      for_loop (row_body dataTable r) from count st
      = (Ok tt, with_arrays st (<[r := a']> (arrays st)), [])
      /\ length a' = length a
      /\ (forall k, from <= k < from + count ->
                    a' !! k = Some (VObj PlainObject
                                      (Object_assign [] (row_entries dataTable k))))
      /\ (forall k, k < from -> a' !! k = a !! k).
Proof.
  intros Hcols. induction count as [|count IH]; intros from st a Ha Hlen.
  - exists a. simpl. unfold ret. rewrite (list_insert_id _ _ _ Ha), with_arrays_id.
    split_and!; [done | done | lia | done].
  - cbn [for_loop].
    rewrite (bind_Ok _ _ _ _ _ _ (arrow_row_body dataTable r from st Hcols)).
    unfold array_at. rewrite Ha. simpl.
    set (row := VObj PlainObject (Object_assign [] (row_entries dataTable from))).
    set (st1 := with_arrays st (<[r := <[from := row]> a]> (arrays st))).
    assert (Hr : r < length (arrays st)) by (by eapply lookup_lt_Some).
    destruct (IH (S from) st1 (<[from := row]> a)) as (a' & Hloop & Hlen' & Hin & Hout).
    { simpl. by apply list_lookup_insert_eq. }
    { rewrite length_insert. lia. }
    rewrite Hloop. exists a'. split_and!.
    + unfold st1, with_arrays. simpl. by rewrite list_insert_insert_eq.
    + by rewrite Hlen', length_insert.
    + intros k Hk. destruct (decide (k = from)) as [-> | Hne].
      * rewrite Hout by lia. apply list_lookup_insert_eq. lia.
      * apply Hin. lia.
    + intros k Hk. rewrite Hout by lia. apply list_lookup_insert_ne. lia.
Qed.

Lemma getArrowData_run dataFilePath st dataBuffer dataTable :
  readFileSync dataFilePath = Ok dataBuffer ->
  Table_from dataBuffer = Ok dataTable ->
  (forall j, j < length (Table.schema_fields dataTable) ->
             is_Some (Table.getColumnAt dataTable j)) ->
  exists rows,
    getArrowData_ dataFilePath st
    = (Ok (length (arrays st)),
       with_schema (with_arrays st (<[length (arrays st) := rows]>
                                      (arrays st ++ [replicate (Table.length dataTable)
                                                       VUndefined])))
         (VObj PlainObject (arrow_schema (Table.schema_fields dataTable))),
       [])
    /\ length rows = Table.length dataTable
    /\ (forall i, i < Table.length dataTable ->
          rows !! i = Some (VObj PlainObject
                              (Object_assign [] (row_entries dataTable i)))).
Proof.
  intros Hread Hparse Hcols.
  set (holes := replicate (Table.length dataTable) VUndefined).
  set (st1 := with_arrays st (arrays st ++ [holes])).
  destruct (arrow_row_loop dataTable (length (arrays st)) (length holes) Hcols
              0 st1 holes) as (rows & Hloop & Hlen & Hin & _).
  { unfold st1. simpl. apply lookup_alloc. }
  { simpl. lia. }
  exists rows.
  assert (Hrun : exists calls,
             getArrowData_ dataFilePath st
             = (Ok (length (arrays st)),
                with_schema
                  (with_arrays st1 (<[length (arrays st) := rows]> (arrays st1)))
                  (VObj PlainObject (arrow_schema (Table.schema_fields dataTable))),
                calls)).
  { eexists. unfold getArrowData.
    eapply bind_run; [unfold lift; by rewrite Hread|].
    eapply bind_run; [unfold lift; by rewrite Hparse|].
    eapply bind_run; [apply alloc_run|].
    eapply bind_run.
    { eapply bind_run; reflexivity. }
    unfold array_at. simpl. rewrite lookup_alloc. simpl.
    eapply bind_run; [exact Hloop|].
    eapply bind_run; [reflexivity|].
    eapply bind_run; reflexivity. }
  destruct Hrun as (calls & Hrun).
  pose proof (getArrowData_calls dataFilePath st) as Hcalls.
  rewrite Hrun in Hcalls. unfold calls_of in Hcalls. simpl in Hcalls. subst calls.
  split_and!.
  - exact Hrun.
  - rewrite Hlen. unfold holes. apply length_replicate.
  - intros i Hi. apply Hin. unfold holes. rewrite length_replicate. lia.
Qed.


(** *** The type mapping *)






(** *** The row-oriented container decoder *)

Lemma emit_untouched r d ev st :
  untouched r st -> untouched r (state_after (emit d ev st)).
Proof.
  intros [Hr Hpush]. destruct ev as [type|data|]; simpl.
  - unfold on_metadata. unfold_M. simpl.
    destruct (decoders st !! d) as [c|] eqn:Hd; simpl; [|done].
    split; [done|]. apply Forall_insert; [done|]. simpl.
    by apply (Forall_lookup_1 _ _ _ _ Hpush Hd).
  - unfold on_data. unfold_M. simpl.
    destruct (decoders st !! d) as [c|] eqn:Hd; simpl; [|done].
    split; [simpl|done]. rewrite list_lookup_insert_ne; [done|].
    by apply (Forall_lookup_1 _ _ _ _ Hpush Hd).
  - unfold on_end. unfold_M. simpl.
    destruct (decoders st !! d) as [c|] eqn:Hd; simpl; [|done].
    destruct (map_outcome flattenObject (array_at st (dataRows c))) as [flat|e];
      simpl; [|done].
    unfold logAvroDataStats. simpl. split; simpl.
    + rewrite lookup_app_l; [done|]. by eapply lookup_lt_Some.
    + apply Forall_insert; [done|]. simpl.
      by apply (Forall_lookup_1 _ _ _ _ Hpush Hd).
Qed.

Lemma deliver_untouched r trace st :
  untouched r st -> untouched r (deliver trace st).
Proof.
  revert st. induction trace as [|[d ev] trace IH]; intros st Hst; [done|].
  simpl. by apply IH, emit_untouched.
Qed.

Lemma on_data_run d data st c :
  decoders st !! d = Some c ->
  emit d (OnData data) st
  = (Ok tt,
     with_arrays st (<[dataRows c := array_at st (dataRows c) ++ [data]]> (arrays st)),
     []).
Proof. intros Hd. simpl. unfold on_data. unfold_M. by rewrite Hd. Qed.

Lemma emit_all_data d ds :
  forall st c a,
    decoders st !! d = Some c -> arrays st !! dataRows c = Some a ->
    emit_all d (OnData <$> ds) st
    = (Ok tt, with_arrays st (<[dataRows c := a ++ ds]> (arrays st)), []).
Proof.
  induction ds as [|data ds IH]; intros st c a Hd Ha.
  - simpl. unfold ret. by rewrite app_nil_r, (list_insert_id _ _ _ Ha), with_arrays_id.
  - change (emit_all d (OnData <$> data :: ds) st)
      with (bind (emit d (OnData data)) (fun _ => emit_all d (OnData <$> ds)) st).
    erewrite bind_run; [|by apply on_data_run|].
    2: { apply (IH _ c (a ++ [data])); simpl; [done|].
         unfold array_at. rewrite Ha. simpl.
         apply list_lookup_insert_eq. by eapply lookup_lt_Some. }
    unfold array_at. rewrite Ha. simpl.
    by rewrite list_insert_insert_eq, <- app_assoc.
Qed.

Lemma emit_all_app d evs1 evs2 st st1 calls1 :
  emit_all d evs1 st = (Ok tt, st1, calls1) ->
  emit_all d (evs1 ++ evs2) st
  = (let '(r, st2, calls2) := emit_all d evs2 st1 in (r, st2, calls1 ++ calls2)).
Proof.
  revert st calls1. induction evs1 as [|ev evs1 IH]; intros st calls1.
  - simpl. unfold ret. intros [= <- <-]. by destruct (emit_all d evs2 st) as [[? ?] ?].
  - simpl. unfold bind. destruct (emit d ev st) as [[[[]|e] st'] calls'] eqn:Hev; [|done].
    destruct (emit_all d evs1 st') as [[[[]|e] st''] calls''] eqn:Hrest;
      intros [= -> <-].
    rewrite (IH _ _ Hrest).
    destruct (emit_all d evs2 st1) as [[r2 st2] calls2]. by rewrite app_assoc.
Qed.

Lemma on_end_run d st c collected flat :
  decoders st !! d = Some c ->
  arrays st !! dataRows c = Some collected ->
  map_outcome flattenObject collected = Ok flat ->
  emit d OnEnd st
  = (Ok tt,
     with_decoders (with_arrays st (arrays st ++ [flat]))
       (<[d := {| dataRows := dataRows c; dataSchema := dataSchema c;
                  rows := length (arrays st) |}]> (decoders st)),
     [PostMessage (RefreshMessage (_fileName st) (uri_toString (_uri st))
                     (_config st) (_schema st) (VArr flat))]).
Proof.
  intros Hd Hrows Hflat. simpl. unfold on_end. unfold logAvroDataStats.
  do 3 unfold_M. rewrite Hd.
  unfold array_at. simpl. rewrite Hrows. simpl. rewrite Hflat. simpl.
  by rewrite lookup_alloc.
Qed.

Lemma getAvroData_run dataFilePath st :
  getAvroData dataFilePath st
  = (Ok (S (length (arrays st))),
     with_decoders (with_arrays st (arrays st ++ [[]; []]))
       (decoders st ++ [{| dataRows := length (arrays st);
                           dataSchema := VObj PlainObject [];
                           rows := S (length (arrays st)) |}]),
     []).
Proof.
  unfold getAvroData. unfold_M. simpl.
  rewrite length_app, <- app_assoc. simpl. by rewrite Nat.add_1_r.
Qed.

(** C1. [getAvroData] returns, without posting anything, a reference to an
    array that is empty and that stays empty whatever the block decoders
    emit afterwards.  The rows reach the webview only when the ['end']
    listener runs: the metadata and data events post nothing, and ['end']
    posts the one refresh message, whose data are the flattened rows
    collected from all the data events. *)
Theorem getAvroData_returns_empty_rows_sent_on_end dataFilePath st :
  refs_allocated st ->
  exists r st1,
    getAvroData dataFilePath st = (Ok r, st1, [])
    /\ arrays st1 !! r = Some []
    /\ (forall trace, arrays (deliver trace st1) !! r = Some [])
    /\ (forall type ds flat,
        map_outcome flattenObject ds = Ok flat ->
        (exists st2,
            emit_all (length (decoders st)) (OnMetadata type :: (OnData <$> ds)) st1
            = (Ok tt, st2, []))
        /\ (exists st3,
            emit_all (length (decoders st))
              (OnMetadata type :: (OnData <$> ds) ++ [OnEnd]) st1
            = (Ok tt, st3,
               [PostMessage (RefreshMessage (_fileName st) (uri_toString (_uri st))
                               (_config st) (_schema st) (VArr flat))]))).
Proof.
  intros Hrefs. eexists _, _. split; [apply getAvroData_run|].
  set (n := length (arrays st)). set (d := length (decoders st)).
  set (c0 := {| dataRows := n; dataSchema := VObj PlainObject []; rows := S n |}).
  set (st1 := with_decoders (with_arrays st (arrays st ++ [[]; []])) (decoders st ++ [c0])).
  assert (Hr : arrays st1 !! S n = Some []).
  { simpl. rewrite (lookup_app_r _ _ (S n)) by (unfold n; lia).
    by replace (S n - length (arrays st)) with 1 by (unfold n; lia). }
  assert (Hn : arrays st1 !! n = Some []).
  { simpl. rewrite (lookup_app_r _ _ n) by (unfold n; lia).
    by replace (n - length (arrays st)) with 0 by (unfold n; lia). }
  split; [exact Hr|]. split.
  - intros trace. apply (deliver_untouched (S n)). split; [exact Hr|].
    simpl. apply Forall_app. split.
    + eapply Forall_impl; [exact Hrefs|]. intros c Hc. simpl in Hc. unfold n. lia.
    + constructor; [simpl; lia | constructor].
  - intros type ds flat Hflat.
    set (c1 := {| dataRows := n; dataSchema := type; rows := S n |}).
    set (stm := with_decoders st1 (<[d := c1]> (decoders st1))).
    assert (Hd : decoders st1 !! d = Some c0) by apply lookup_alloc.
    assert (Hmeta : emit d (OnMetadata type) st1 = (Ok tt, stm, [])).
    { simpl. unfold on_metadata. unfold_M. by rewrite Hd. }
    assert (Hdm : decoders stm !! d = Some c1).
    { simpl. apply list_lookup_insert_eq. rewrite length_app. simpl. unfold d. lia. }
    pose proof (emit_all_data d ds stm c1 [] Hdm Hn) as Hdata.
    set (st2 := with_arrays stm (<[dataRows c1 := [] ++ ds]> (arrays stm))) in Hdata.
    assert (Hevs : emit_all d (OnMetadata type :: (OnData <$> ds)) st1 = (Ok tt, st2, [])).
    { change (emit_all d (OnMetadata type :: (OnData <$> ds)) st1)
        with (bind (emit d (OnMetadata type)) (fun _ => emit_all d (OnData <$> ds)) st1).
      by rewrite (bind_run _ _ _ _ _ _ _ _ _ Hmeta Hdata). }
    split; [by exists st2|].
    rewrite app_comm_cons, (emit_all_app _ _ _ _ _ _ Hevs).
    change (emit_all d [OnEnd] st2)
      with (bind (emit d OnEnd) (fun _ => ret tt) st2).
    erewrite bind_run; [| |reflexivity].
    2: { apply (on_end_run d st2 c1 ds flat); [exact Hdm| |exact Hflat].
         simpl. apply list_lookup_insert_eq. rewrite length_app. simpl. unfold n. lia. }
    simpl. by eexists.
Qed.

(** *** What [refresh] does with the [null] of [getFileData] *)

Lemma refresh_missing_file st :
  existsSync (path_join (path_dirname (fsPath (_uri st))) (_fileName st)) = false ->
  refresh_ st
  = (Ok tt, st,
     [Reveal; LogMessage LogLevel.Debug "refresh(): file:";
      LogMessage LogLevel.Error "getFileData():";
      ShowErrorMessage (_fileName st +:+ " doesn't exist!");
      LogMessage LogLevel.Error ("refresh(): " +:+ error_message null_length);
      PostMessage (ErrorMessage null_length)]).
Proof.
  intros Hex. by rewrite refresh_unfold, (getFileData_missing _ _ Hex).
Qed.

Lemma refresh_unsupported_extension st :
  existsSync (path_join (path_dirname (fsPath (_uri st))) (_fileName st)) = true ->
  case_of (substr (_fileName st) (lastIndexOf (_fileName st) "."))
    supported_extensions = false ->
  refresh_ st
  = (Ok tt, st,
     [Reveal; LogMessage LogLevel.Debug "refresh(): file:";
      LogMessage LogLevel.Error ("refresh(): " +:+ error_message null_length);
      PostMessage (ErrorMessage null_length)]).
Proof.
  intros Hex Hext. by rewrite refresh_unfold, (getFileData_unsupported _ _ Hex Hext).
Qed.

End Properties.

(** ** The sample workspace *)

Lemma getFileData_text_is_raw_content_witness :
  Sample.getFileData "a.csv" (Sample.session "a.csv")
  = (Ok (DataText Sample.a_csv), Sample.session "a.csv", [])
  /\ ("a.csv" = _fileName (Sample.session "a.csv") -> Sample.a_csv <> "" ->
      state_after (Sample.refresh (Sample.session "a.csv")) = Sample.session "a.csv"
      /\ posted (calls_of (Sample.refresh (Sample.session "a.csv")))
         = [RefreshMessage "a.csv" "file:///data/a.csv" (VObj PlainObject [])
              VUndefined (VStr Sample.a_csv)]).
Proof.
  apply (getFileData_text_is_raw_content
           Sample.path_dirname Sample.path_join Sample.existsSync
           Sample.readFileSync_utf8 Sample.readFileSync Sample.Sheet
           Sample.xlsx_readFile Sample.sheet_to_json Sample.Table_from
           "a.csv" (Sample.session "a.csv") Sample.a_csv); reflexivity.
Defined.



Lemma getExcelData_first_sheet_only_witness :
  (exists r st' calls,
      getExcelData Sample.Sheet Sample.sheet_to_json Sample.empty_book
        (Sample.session "book.xlsx") = (Ok r, st', calls)
      /\ arrays st' !! r = Some [])
  /\ (exists r st' calls,
      getExcelData Sample.Sheet Sample.sheet_to_json Sample.book
        (Sample.session "book.xlsx") = (Ok r, st', calls)
      /\ arrays st' !! r = Some [VObj PlainObject [("x", VNum 1)];
                                 VObj PlainObject [("x", VNum 2)]]).
Proof.
  split.
  - apply (proj1 (getExcelData_first_sheet_only Sample.Sheet Sample.sheet_to_json
                    Sample.empty_book (Sample.session "book.xlsx"))).
    reflexivity.
  - apply (proj2 (getExcelData_first_sheet_only Sample.Sheet Sample.sheet_to_json
                    Sample.book (Sample.session "book.xlsx"))
             "First" ["Second"]); reflexivity.
Defined.

Lemma sample_table_columns j :
  j < length (Table.schema_fields Sample.table) ->
  is_Some (Table.getColumnAt Sample.table j).
Proof.
  destruct j as [|[|j]]; simpl; [by eexists | by eexists | lia].
Qed.




Lemma getAvroData_returns_empty_rows_sent_on_end_witness :
  exists r st1,
    getAvroData "/data/r.avro" (Sample.session "r.avro") = (Ok r, st1, [])
    /\ arrays st1 !! r = Some []
    /\ (forall trace, arrays (deliver trace st1) !! r = Some [])
    /\ (forall type ds flat,
        map_outcome flattenObject ds = Ok flat ->
        (exists st2,
            emit_all (length (decoders (Sample.session "r.avro")))
              (OnMetadata type :: (OnData <$> ds)) st1
            = (Ok tt, st2, []))
        /\ (exists st3,
            emit_all (length (decoders (Sample.session "r.avro")))
              (OnMetadata type :: (OnData <$> ds) ++ [OnEnd]) st1
            = (Ok tt, st3,
               [PostMessage (RefreshMessage "r.avro" "file:///data/r.avro"
                               (VObj PlainObject []) VUndefined (VArr flat))]))).
Proof.
  apply (getAvroData_returns_empty_rows_sent_on_end "/data/r.avro"
           (Sample.session "r.avro")).
  unfold refs_allocated. simpl. apply Forall_nil_2.
Defined.

(** Two blocks of records through the listeners of a preview of [r.avro]:
    the array handed to [refresh] is still empty after the ['end'] event,
    and the message posted by the ['end'] listener carries the three
    flattened rows. *)
Example avro_two_blocks :
  let st1 := state_after (Sample.refresh (Sample.session "r.avro")) in
  let block1 := [VObj PlainObject [("id", VNum 1);
                                   ("pos", VObj PlainObject [("x", VNum 10)])];
                 VObj PlainObject [("id", VNum 2);
                                   ("pos", VObj PlainObject [("x", VNum 20)])]] in
  let block2 := [VObj PlainObject [("id", VNum 3);
                                   ("pos", VObj PlainObject [("x", VNum 30)])]] in
  let run := emit_all 0 (OnMetadata VNull :: (OnData <$> block1 ++ block2) ++ [OnEnd]) st1 in
  posted (calls_of (Sample.refresh (Sample.session "r.avro"))) = []
  /\ array_at (state_after run) 1 = []
  /\ posted (calls_of run)
     = [RefreshMessage "r.avro" "file:///data/r.avro" (VObj PlainObject []) VUndefined
          (VArr [VObj PlainObject [("id", VNum 1); ("x", VNum 10)];
                 VObj PlainObject [("id", VNum 2); ("x", VNum 20)];
                 VObj PlainObject [("id", VNum 3); ("x", VNum 30)]])].
Proof. vm_compute. done. Qed.

(** C2. A preview of the existing file [notes.foo], whose extension has no
    case in [getFileData]: no decoder runs and [refresh] returns normally,
    but it posts an error message to the webview, the [TypeError] of reading
    [length] of the [null] that [getFileData] returned. *)
Theorem refresh_unsupported_extension_posts_error :
  Sample.existsSync "/data/notes.foo" = true
  /\ case_of (substr "notes.foo" (lastIndexOf "notes.foo" ".")) supported_extensions = false
  /\ Sample.getFileData "notes.foo" (Sample.session "notes.foo")
     = (Ok DataNull, Sample.session "notes.foo", [])
  /\ Sample.refresh (Sample.session "notes.foo")
     = (Ok tt, Sample.session "notes.foo",
        [Reveal; LogMessage LogLevel.Debug "refresh(): file:";
         LogMessage LogLevel.Error "refresh(): Cannot read property 'length' of null";
         PostMessage (ErrorMessage null_length)])
  /\ posted (calls_of (Sample.refresh (Sample.session "notes.foo")))
     = [ErrorMessage null_length].
Proof. repeat split. Qed.

(** C3. A preview of [gone.csv], which does not exist: [refresh] shows the
    notice that the file does not exist, and then posts an error message to
    the webview, the [TypeError] of reading [length] of the [null] that
    [getFileData] returned. *)
Theorem refresh_missing_file_posts_error :
  Sample.existsSync "/data/gone.csv" = false
  /\ Sample.refresh (Sample.session "gone.csv")
     = (Ok tt, Sample.session "gone.csv",
        [Reveal; LogMessage LogLevel.Debug "refresh(): file:";
         LogMessage LogLevel.Error "getFileData():";
         ShowErrorMessage "gone.csv doesn't exist!";
         LogMessage LogLevel.Error "refresh(): Cannot read property 'length' of null";
         PostMessage (ErrorMessage null_length)])
  /\ error_notices (calls_of (Sample.refresh (Sample.session "gone.csv")))
     = ["gone.csv doesn't exist!"]
  /\ posted (calls_of (Sample.refresh (Sample.session "gone.csv")))
     = [ErrorMessage null_length].
Proof. repeat split. Qed.

(** * Further properties of the class *)

(** ** More on objects and the row flattener *)







Lemma well_formed_NoDup o : well_formed o = true -> NoDup (o.*1).
Proof.
  unfold well_formed. induction (o.*1) as [|k ks IH]; [constructor|].
  rewrite keys_ordered_cons. intros (Hn & _ & Hord). constructor; auto.
Qed.



Lemma is_flat_string_props i s : is_flat (string_props i s) = true.
Proof. revert i. induction s as [|a s IH]; intros i; simpl; auto. Qed.


(** X1. [flattenObject] returns normally on every value other than [null]
    and [undefined], and what it returns is a plain object that lists no key
    twice and none of whose values is a non-null object. *)
Theorem flattenObject_returns_flat_record v :
  v <> VNull -> v <> VUndefined ->
  exists flat, flattenObject v = Ok (VObj PlainObject flat)
               /\ is_flat flat = true /\ well_formed flat = true /\ NoDup (flat.*1).
Proof.
  intros Hnull Hundef.
  assert (H : exists flat, flattenObject v = Ok (VObj PlainObject flat)
                           /\ well_formed flat = true /\ is_flat flat = true).
  { destruct v as [| |b|n|s|c ps]; try done.
    - by exists [].
    - by exists [].
    - eexists. split; [reflexivity|].
      apply Object_assign_invariant; [done | done | apply is_flat_string_props].
    - by apply flattenObject_nested. }
  destruct H as (flat & Hflat & Hwf & Hfl). exists flat.
  split_and!; [done | done | done | by apply well_formed_NoDup].
Qed.

Lemma flattenObject_returns_flat_record_witness :
  exists flat,
    flattenObject (VObj PlainObject
                     [("id", VNum 1);
                      ("pos", VObj PlainObject [("x", VNum 10); ("tags", VArr [VStr "a"])])])
    = Ok (VObj PlainObject flat)
    /\ is_flat flat = true /\ well_formed flat = true /\ NoDup (flat.*1).
Proof. apply flattenObject_returns_flat_record; discriminate. Defined.


(** A collision between a top-level key and a nested one, and a key whose
    object has no leaves. *)
Example flattenObject_collision :
  flattenObject (VObj PlainObject
                   [("x", VNum 1);
                    ("a", VObj PlainObject [("x", VNum 2); ("y", VNull)]);
                    ("when", VObj (DateObject 0) []);
                    ("none", VObj PlainObject [])])
  = Ok (VObj PlainObject [("x", VNum 2); ("y", VNull)]).
Proof. reflexivity. Qed.

(** ** The extension that [getFileData] dispatches on *)

Lemma lastIndexOf_absent c s : has_char c s = false -> lastIndexOf s c = (-1)%Z.
Proof.
  induction s as [|a s IH]; simpl; [done|].
  intros H. apply orb_false_iff in H as [Ha Hs]. by rewrite (IH Hs), Ha.
Qed.

Lemma lastIndexOf_lower c s : (-1 <= lastIndexOf s c)%Z.
Proof.
  induction s as [|a s IH]; simpl; [lia|].
  destruct (Z.leb_spec 0 (lastIndexOf s c)); [lia|]. destruct (Ascii.eqb a c); lia.
Qed.

Lemma lastIndexOf_last c stem rest :
  has_char c rest = false ->
  lastIndexOf (stem +:+ String c rest) c = Z.of_nat (String.length stem).
Proof.
  intros Hrest. induction stem as [|a stem IH].
  - simpl. by rewrite (lastIndexOf_absent _ _ Hrest), Ascii.eqb_refl.
  - change (lastIndexOf (String a (stem +:+ String c rest)) c
            = Z.of_nat (S (String.length stem))).
    simpl lastIndexOf. rewrite IH.
    destruct (Z.leb_spec 0 (Z.of_nat (String.length stem))); lia.
Qed.

Lemma string_drop_app stem x : string_drop (String.length stem) (stem +:+ x) = x.
Proof. induction stem as [|a stem IH]; simpl; [by destruct x | done]. Qed.

Lemma length_string_app s1 s2 :
  String.length (s1 +:+ s2) = String.length s1 + String.length s2.
Proof. induction s1 as [|a s1 IH]; simpl; [done | by rewrite IH]. Qed.

Lemma length_string_drop n s : String.length (string_drop n s) = String.length s - n.
Proof.
  revert s. induction n as [|n IH]; intros s; simpl; [lia|].
  destruct s as [|a s]; simpl; [done | apply IH].
Qed.

(** With a dot in the name, the extension is the text from the last dot. *)
Lemma substr_extension stem rest :
  has_char "." rest = false ->
  substr (stem +:+ String "." rest) (lastIndexOf (stem +:+ String "." rest) ".")
  = String "." rest.
Proof.
  intros Hrest. rewrite (lastIndexOf_last _ _ _ Hrest). unfold substr.
  destruct (Z.ltb_spec (Z.of_nat (String.length stem)) 0); [lia|].
  rewrite length_string_app. simpl String.length.
  rewrite Z.min_l by lia. rewrite Nat2Z.id. apply string_drop_app.
Qed.

(** Without a dot, it is the last character of the name. *)
Lemma substr_no_dot filePath :
  has_char "." filePath = false ->
  String.length (substr filePath (lastIndexOf filePath ".")) <= 1.
Proof.
  intros Hno. rewrite (lastIndexOf_absent _ _ Hno). unfold substr. simpl.
  rewrite length_string_drop. lia.
Qed.

Lemma short_extension_unsupported ext :
  String.length ext <= 1 -> case_of ext supported_extensions = false.
Proof.
  destruct ext as [|a [|b ext]]; simpl; [done | | lia]. intros _.
  unfold case_of, supported_extensions. simpl.
  destruct (Ascii.eqb a "."); reflexivity.
Qed.

Section Dispatch.

Variable path_dirname : string -> string.
Variable path_join : string -> string -> string.
Variable existsSync : string -> bool.
Variable readFileSync_utf8 : string -> outcome string.
Variable readFileSync : string -> outcome (list Byte.byte).
Variable Sheet : Type.
Variable xlsx_readFile : string -> ParsingOptions -> outcome (WorkBook Sheet).
Variable sheet_to_json : option Sheet -> outcome (list value).
Variable Table_from : list Byte.byte -> outcome Table.t.

Local Abbreviation getFileData_ :=
  (getFileData path_dirname path_join existsSync readFileSync_utf8 readFileSync
     Sheet xlsx_readFile sheet_to_json Table_from).
Local Abbreviation refresh_ :=
  (refresh path_dirname path_join existsSync readFileSync_utf8 readFileSync
     Sheet xlsx_readFile sheet_to_json Table_from).
Local Abbreviation resolve st filePath :=
  (path_join (path_dirname (fsPath (_uri st))) filePath).

(** X3. [getFileData] dispatches on the text from the last dot of the file
    name: whatever precedes that dot, other dots included, a name that ends
    in one of the five text extensions is read as text. *)
Theorem getFileData_dispatches_on_last_dot stem rest st text :
  has_char "." rest = false ->
  case_of (String "." rest) [".csv"; ".tsv"; ".txt"; ".tab"; ".json"] = true ->
  existsSync (resolve st (stem +:+ String "." rest)) = true ->
  readFileSync_utf8 (resolve st (stem +:+ String "." rest)) = Ok text ->
  getFileData_ (stem +:+ String "." rest) st = (Ok (DataText text), st, []).
Proof.
  intros Hrest Hext Hex Hread.
  apply (getFileData_text path_dirname path_join existsSync readFileSync_utf8
           readFileSync Sheet xlsx_readFile sheet_to_json Table_from); [done| |done].
  by rewrite (substr_extension _ _ Hrest).
Qed.

(** X4. A file whose name has no dot is never decoded: when it exists,
    [getFileData] returns [null] without reading it and without any notice
    (the text taken for its extension is the last character of the name). *)
Theorem getFileData_name_without_dot filePath st :
  has_char "." filePath = false ->
  existsSync (resolve st filePath) = true ->
  getFileData_ filePath st = (Ok DataNull, st, []).
Proof.
  intros Hno Hex.
  apply (getFileData_unsupported path_dirname path_join existsSync readFileSync_utf8
           readFileSync Sheet xlsx_readFile sheet_to_json Table_from); [done|].
  apply short_extension_unsupported, substr_no_dot, Hno.
Qed.

(** *** Dispatch to the decoders *)

Ltac dispatch Hex Hext :=
  unfold getFileData; unfold bind at 1; unfold get_state at 1;
  rewrite Hex; change (negb true) with false; cbv iota zeta;
  rewrite ?Hext;
  repeat match goal with
         | |- context [case_of ?e ?l] =>
             let b := eval vm_compute in (case_of e l) in
             change (case_of e l) with b
         end;
  cbv iota;
  first [ reflexivity
        | match goal with
          | |- context [bind ?m ?k ?s] =>
              destruct (bind m k s) as [[? ?] ?]; reflexivity
          end ].

Ltac each_extension Hext :=
  unfold case_of in Hext; simpl in Hext;
  repeat (apply orb_true_iff in Hext as [Hext|Hext]); try discriminate Hext;
  apply String.eqb_eq in Hext.

Lemma getFileData_binary_excel filePath st :
  existsSync (resolve st filePath) = true ->
  case_of (substr filePath (lastIndexOf filePath "."))
    [".xls"; ".xlsb"; ".xlsx"; ".xlsm"; ".slk"; ".ods"; ".prn"] = true ->
  getFileData_ filePath st
  = bind (getBinaryExcelData Sheet xlsx_readFile sheet_to_json (resolve st filePath))
      (fun r => ret (DataRows r)) st.
Proof. intros Hex Hext. each_extension Hext; dispatch Hex Hext. Qed.

Lemma getFileData_text_excel filePath st :
  existsSync (resolve st filePath) = true ->
  case_of (substr filePath (lastIndexOf filePath ".")) [".dif"; ".xml"; ".html"] = true ->
  getFileData_ filePath st
  = bind (getTextExcelData Sheet xlsx_readFile sheet_to_json (resolve st filePath))
      (fun r => ret (DataRows r)) st.
Proof. intros Hex Hext. each_extension Hext; dispatch Hex Hext. Qed.

Lemma getFileData_arrow filePath st :
  existsSync (resolve st filePath) = true ->
  substr filePath (lastIndexOf filePath ".") = ".arrow" ->
  getFileData_ filePath st
  = bind (getArrowData readFileSync Table_from (resolve st filePath))
      (fun r => ret (DataRows r)) st.
Proof. intros Hex Hext. dispatch Hex Hext. Qed.

Lemma getFileData_avro filePath st :
  existsSync (resolve st filePath) = true ->
  substr filePath (lastIndexOf filePath ".") = ".avro" ->
  getFileData_ filePath st
  = bind (getAvroData (resolve st filePath))
      (fun r => bind (logMessage LogLevel.Debug "getFileData(): Avro data:")
                  (fun _ => ret (DataRows r))) st.
Proof. intros Hex Hext. dispatch Hex Hext. Qed.

Lemma getFileData_parquet filePath st :
  existsSync (resolve st filePath) = true ->
  substr filePath (lastIndexOf filePath ".") = ".parquet" ->
  getFileData_ filePath st
  = (Ok DataNull, st,
     [ShowInformationMessage "Parquet data format support coming soon!"]).
Proof. intros Hex Hext. dispatch Hex Hext. Qed.

(** *** Spreadsheets, end to end *)

Lemma getExcelData_run workbook st firstSheetName others converted :
  SheetNames workbook = firstSheetName :: others ->
  sheet_to_json (Sheets workbook !! firstSheetName) = Ok converted ->
  exists calls,
    getExcelData Sheet sheet_to_json workbook st
    = (Ok (S (length (arrays st))), with_arrays st (arrays st ++ [[]; converted]), calls)
    /\ posted calls = [].
Proof.
  intros Hnames Hconv. unfold getExcelData. rewrite Hnames. unfold_M. simpl.
  rewrite Hconv. simpl. rewrite length_app, Nat.add_1_r, <- app_assoc. simpl.
  destruct (0 <? length converted)%nat; simpl; by eexists.
Qed.

(** X5. For a spreadsheet file, [refresh] has the workbook parsed with the
    type [binary] for the extensions [.xls .xlsb .xlsx .xlsm .slk .ods .prn]
    and with the type [file] for [.dif .xml .html], and posts one refresh
    message whose data are the rows of the first sheet; the schema it sends
    is the one the session already had. *)
Theorem refresh_spreadsheet_sends_first_sheet st workbook firstSheetName others converted :
  existsSync (resolve st (_fileName st)) = true ->
  (case_of (substr (_fileName st) (lastIndexOf (_fileName st) "."))
     [".xls"; ".xlsb"; ".xlsx"; ".xlsm"; ".slk"; ".ods"; ".prn"] = true
   /\ xlsx_readFile (resolve st (_fileName st)) {| type := binary; cellDates := true |}
      = Ok workbook)
  \/ (case_of (substr (_fileName st) (lastIndexOf (_fileName st) "."))
        [".dif"; ".xml"; ".html"] = true
      /\ xlsx_readFile (resolve st (_fileName st)) {| type := file; cellDates := true |}
         = Ok workbook) ->
  SheetNames workbook = firstSheetName :: others ->
  sheet_to_json (Sheets workbook !! firstSheetName) = Ok converted ->
  converted <> [] ->
  state_after (refresh_ st) = with_arrays st (arrays st ++ [[]; converted])
  /\ posted (calls_of (refresh_ st))
     = [RefreshMessage (_fileName st) (uri_toString (_uri st)) (_config st)
          (_schema st) (VArr converted)].
Proof.
  intros Hex Hkind Hnames Hconv Hne.
  destruct (getExcelData_run workbook st _ _ _ Hnames Hconv) as (calls & Hrun & Hquiet).
  assert (Hget : getFileData_ (_fileName st) st
                 = (Ok (DataRows (S (length (arrays st)))),
                    with_arrays st (arrays st ++ [[]; converted]), calls ++ [])).
  { destruct Hkind as [[Hext Hread] | [Hext Hread]].
    - rewrite (getFileData_binary_excel _ _ Hex Hext).
      eapply bind_run; [|reflexivity]. unfold getBinaryExcelData.
      rewrite <- (app_nil_l calls). eapply bind_run; [|exact Hrun].
      unfold lift. by rewrite Hread.
    - rewrite (getFileData_text_excel _ _ Hex Hext).
      eapply bind_run; [|reflexivity]. unfold getTextExcelData.
      rewrite <- (app_nil_l calls). eapply bind_run; [|exact Hrun].
      unfold lift. by rewrite Hread. }
  rewrite (refresh_unfold path_dirname path_join existsSync readFileSync_utf8
             readFileSync Sheet xlsx_readFile sheet_to_json Table_from), Hget.
  assert (Harr : array_at (with_arrays st (arrays st ++ [[]; converted]))
                   (S (length (arrays st))) = converted).
  { unfold array_at. simpl.
    rewrite (lookup_app_r _ _ (S (length (arrays st)))) by lia.
    by replace (S (length (arrays st)) - length (arrays st)) with 1 by lia. }
  split.
  - unfold refresh_result. rewrite Harr.
    by destruct (0 <? length converted)%nat.
  - rewrite posted_refresh_result.
    + rewrite Harr. destruct converted; [done|]. reflexivity.
    + unfold calls_of. simpl. by rewrite app_nil_r.
Qed.

(** *** Formats without a decoder *)

(** X6. For an existing [.parquet] file nothing is decoded: [refresh] shows
    the notice that the format is not supported yet, and then logs and posts
    the [TypeError] of reading [length] of the [null] that [getFileData]
    returned. *)
Theorem refresh_parquet_shows_notice st :
  existsSync (resolve st (_fileName st)) = true ->
  substr (_fileName st) (lastIndexOf (_fileName st) ".") = ".parquet" ->
  refresh_ st
  = (Ok tt, st,
     [Reveal; LogMessage LogLevel.Debug "refresh(): file:";
      ShowInformationMessage "Parquet data format support coming soon!";
      LogMessage LogLevel.Error ("refresh(): " +:+ error_message null_length);
      PostMessage (ErrorMessage null_length)]).
Proof.
  intros Hex Hext.
  by rewrite (refresh_unfold path_dirname path_join existsSync readFileSync_utf8
                readFileSync Sheet xlsx_readFile sheet_to_json Table_from),
       (getFileData_parquet _ _ Hex Hext).
Qed.

(** *** The row-oriented container, end to end *)

(** X7. For an [.avro] file [refresh] posts nothing: it allocates the two
    arrays and subscribes one more block decoder.  The ['end'] listener
    posts its refresh message also when no row was collected, with empty
    data. *)
Theorem refresh_avro_subscribes_and_end_posts st :
  existsSync (resolve st (_fileName st)) = true ->
  substr (_fileName st) (lastIndexOf (_fileName st) ".") = ".avro" ->
  refresh_ st
  = (Ok tt,
     with_decoders (with_arrays st (arrays st ++ [[]; []]))
       (decoders st ++ [{| dataRows := length (arrays st);
                           dataSchema := VObj PlainObject [];
                           rows := S (length (arrays st)) |}]),
     [Reveal; LogMessage LogLevel.Debug "refresh(): file:";
      LogMessage LogLevel.Debug "getFileData(): Avro data:"])
  /\ calls_of (emit (length (decoders st)) OnEnd (state_after (refresh_ st)))
     = [PostMessage (RefreshMessage (_fileName st) (uri_toString (_uri st))
                       (_config st) (_schema st) (VArr []))].
Proof.
  intros Hex Hext.
  assert (Hrefresh : refresh_ st
    = (Ok tt,
       with_decoders (with_arrays st (arrays st ++ [[]; []]))
         (decoders st ++ [{| dataRows := length (arrays st);
                             dataSchema := VObj PlainObject [];
                             rows := S (length (arrays st)) |}]),
       [Reveal; LogMessage LogLevel.Debug "refresh(): file:";
        LogMessage LogLevel.Debug "getFileData(): Avro data:"])).
  { rewrite (refresh_unfold path_dirname path_join existsSync readFileSync_utf8
               readFileSync Sheet xlsx_readFile sheet_to_json Table_from),
      (getFileData_avro _ _ Hex Hext).
    rewrite (bind_run _ _ _ _ _ _ _ _ _ (getAvroData_run _ st) eq_refl).
    unfold refresh_result, array_at. simpl.
    rewrite (lookup_app_r _ _ (S (length (arrays st)))) by lia.
    by replace (S (length (arrays st)) - length (arrays st)) with 1 by lia. }
  split; [exact Hrefresh|]. rewrite Hrefresh. unfold state_after. simpl fst. simpl snd.
  erewrite (on_end_run _ _ _ [] []); [reflexivity | apply lookup_alloc | | reflexivity].
  simpl. rewrite lookup_app_r by lia. by rewrite Nat.sub_diag.
Qed.

Lemma flattenObject_throws v e :
  flattenObject v = Throw e -> e = null_to_object /\ (v = VNull \/ v = VUndefined).
Proof.
  destruct v as [| |b|n|s|c ps]; try discriminate.
  - intros [= <-]. auto.
  - intros [= <-]. auto.
  - destruct (flattenObject_nested (VObj c ps) eq_refl) as (flat & -> & _). discriminate.
Qed.

Lemma map_outcome_flatten_null rows :
  VNull ∈ rows \/ VUndefined ∈ rows ->
  map_outcome flattenObject rows = Throw null_to_object.
Proof.
  induction rows as [|row rows IH]; intros Hin.
  - destruct Hin as [Hin|Hin]; inversion Hin.
  - simpl. destruct (flattenObject row) as [flat|e] eqn:Hrow.
    + rewrite IH; [done|].
      destruct Hin as [Hin|Hin]; apply elem_of_cons in Hin as [<-|Hin];
        try discriminate; auto.
    + by destruct (flattenObject_throws _ _ Hrow) as [-> _].
Qed.

(** X8. When one of the collected rows is [null] or [undefined], the ['end']
    listener throws the [TypeError] of [Object.keys] before it has changed
    anything, and posts no message. *)
Theorem end_listener_throws_on_null_row d st c :
  decoders st !! d = Some c ->
  VNull ∈ array_at st (dataRows c) \/ VUndefined ∈ array_at st (dataRows c) ->
  emit d OnEnd st = (Throw null_to_object, st, []).
Proof.
  intros Hd Hnull. simpl. unfold on_end. do 2 unfold_M. rewrite Hd. simpl.
  by rewrite (map_outcome_flatten_null _ Hnull).
Qed.

(** *** The columnar decoder, end to end *)

Local Abbreviation row_body dataTable r :=
  (fun i =>
     proto <- lift (forEach_field dataTable i
                      (map name (Table.schema_fields dataTable)) 0 []) ;;
     array_set r i (VObj PlainObject proto)).

Lemma for_loop_invariant (P : State -> Prop) body :
  (forall i st, P st -> P (state_after (body i st))) ->
  forall count from st, P st -> P (state_after (for_loop body from count st)).
Proof.
  intros Hbody. induction count as [|count IH]; intros from st Hst; [done|].
  simpl. unfold bind. specialize (Hbody from st Hst).
  destruct (body from st) as [[[[]|e] st1] calls1]; [|done].
  specialize (IH (S from) st1 Hbody).
  by destruct (for_loop body (S from) count st1) as [[r st2] calls2].
Qed.

Lemma rows_of_lookups {A} (rows : list A) n f :
  length rows = n -> (forall i, i < n -> rows !! i = Some (f i)) ->
  rows = f <$> seq 0 n.
Proof.
  intros Hlen Hrows. apply list_eq. intros i. rewrite list_lookup_fmap.
  destruct (decide (i < n)) as [Hi|Hi].
  - rewrite (Hrows i Hi), lookup_seq_lt by done. done.
  - rewrite lookup_ge_None_2 by lia. by rewrite lookup_seq_ge by lia.
Qed.

(** X9. For an [.arrow] file that parses to a table with its columns,
    [refresh] stores the schema derived from the fields and, when the table
    has rows, posts one refresh message with that schema and the rows; when
    the table has no rows it still stores the schema but posts nothing. *)
Theorem refresh_arrow_sends_rows_and_schema st dataBuffer dataTable :
  existsSync (resolve st (_fileName st)) = true ->
  substr (_fileName st) (lastIndexOf (_fileName st) ".") = ".arrow" ->
  readFileSync (resolve st (_fileName st)) = Ok dataBuffer ->
  Table_from dataBuffer = Ok dataTable ->
  (forall j, j < length (Table.schema_fields dataTable) ->
             is_Some (Table.getColumnAt dataTable j)) ->
  _schema (state_after (refresh_ st))
  = VObj PlainObject (arrow_schema (Table.schema_fields dataTable))
  /\ posted (calls_of (refresh_ st))
     = if (0 <? Table.length dataTable)%nat
       then [RefreshMessage (_fileName st) (uri_toString (_uri st)) (_config st)
               (VObj PlainObject (arrow_schema (Table.schema_fields dataTable)))
               (VArr ((fun i => VObj PlainObject
                                  (Object_assign [] (row_entries dataTable i)))
                        <$> seq 0 (Table.length dataTable)))]
       else [].
Proof.
  intros Hex Hext Hread Hparse Hcols.
  destruct (getArrowData_run readFileSync Table_from _ st _ _ Hread Hparse Hcols)
    as (rows & Hrun & Hlen & Hrows).
  pose proof (rows_of_lookups rows _ _ Hlen Hrows) as Heq.
  rewrite (refresh_unfold path_dirname path_join existsSync readFileSync_utf8
             readFileSync Sheet xlsx_readFile sheet_to_json Table_from),
    (getFileData_arrow _ _ Hex Hext).
  rewrite (bind_run _ _ _ _ _ _ _ _ _ Hrun eq_refl).
  match goal with
  | |- context [refresh_result st (Ok (DataRows ?r), ?s, ?c)] =>
      assert (Harr : array_at s r = rows)
  end.
  { unfold array_at. simpl. rewrite list_lookup_insert_eq; [done|].
    rewrite length_app. simpl. lia. }
  split.
  - unfold refresh_result. rewrite Harr.
    by destruct (0 <? length rows)%nat.
  - rewrite posted_refresh_result by done. rewrite Harr, Hlen.
    destruct (0 <? Table.length dataTable)%nat; [|done]. simpl. by rewrite Heq.
Qed.

(** X10. [getArrowData] replaces the schema of the session only when it
    returns: whenever it throws (unreadable file, parse failure, a field
    without column), the schema, the configuration and the identity of the
    session are as before. *)
Theorem getArrowData_failure_keeps_schema dataFilePath st e st' calls :
  getArrowData readFileSync Table_from dataFilePath st = (Throw e, st', calls) ->
  _schema st' = _schema st /\ _config st' = _config st
  /\ _fileName st' = _fileName st /\ _uri st' = _uri st.
Proof.
  unfold getArrowData. unfold bind at 1. unfold lift at 1.
  destruct (readFileSync dataFilePath) as [dataBuffer|e0]; [|by intros [= _ <- _]].
  unfold bind at 1. unfold lift at 1.
  destruct (Table_from dataBuffer) as [dataTable|e0]; [|by intros [= _ <- _]].
  rewrite (bind_Ok _ _ _ _ _ _ (alloc_run _ st)).
  set (st1 := with_arrays st _).
  rewrite (bind_Ok _ _ st1 (length (array_at st1 (length (arrays st)))) st1 []) by done.
  unfold bind at 1.
  pose proof (for_loop_invariant
                (fun s => _schema s = _schema st /\ _config s = _config st
                          /\ _fileName s = _fileName st /\ _uri s = _uri st)
                (row_body dataTable (length (arrays st)))) as Hinv.
  specialize (Hinv (fun i s Hs => ltac:(
    unfold bind, lift, state_after;
    destruct (forEach_field dataTable i _ 0 []); simpl; exact Hs))
    (length (array_at st1 (length (arrays st)))) 0 st1 (conj eq_refl (conj eq_refl (conj eq_refl eq_refl)))).
  destruct (for_loop _ 0 _ st1) as [[[[]|e1] st2] calls2].
  - unfold logArrowDataStats. simpl. discriminate.
  - simpl. by intros [= _ <- _].
Qed.

Lemma forEach_field_missing dataTable i fields :
  forall index proto j,
    j < length fields -> Table.getColumnAt dataTable (index + j) = None ->
    forEach_field dataTable i fields index proto = Throw null_get.
Proof.
  induction fields as [|fieldName fields IH]; intros index proto j Hj Hnone.
  - simpl in Hj. lia.
  - simpl. destruct (Table.getColumnAt dataTable index) as [column|] eqn:Hcol; [|done].
    destruct j as [|j].
    + rewrite Nat.add_0_r in Hnone. congruence.
    + apply (IH _ _ j); [simpl in Hj; lia|].
      by rewrite Nat.add_succ_l, <- Nat.add_succ_r.
Qed.

(** X11. A field of the table for which [getColumnAt] gives no column makes
    [getArrowData] throw a [TypeError] as soon as there is a row to build,
    before the schema is touched; when the table has no rows the missing
    column is never looked at and the decode returns an empty array. *)
Theorem getArrowData_missing_column dataFilePath st dataBuffer dataTable :
  readFileSync dataFilePath = Ok dataBuffer ->
  Table_from dataBuffer = Ok dataTable ->
  (forall j,
      0 < Table.length dataTable ->
      j < length (Table.schema_fields dataTable) ->
      Table.getColumnAt dataTable j = None ->
      getArrowData readFileSync Table_from dataFilePath st
      = (Throw null_get,
         with_arrays st (arrays st ++ [replicate (Table.length dataTable) VUndefined]),
         []))
  /\ (Table.length dataTable = 0 ->
      getArrowData readFileSync Table_from dataFilePath st
      = (Ok (length (arrays st)),
         with_schema (with_arrays st (arrays st ++ [[]]))
           (VObj PlainObject (arrow_schema (Table.schema_fields dataTable))),
         [])).
Proof.
  intros Hread Hparse.
  assert (Hstart :
    getArrowData readFileSync Table_from dataFilePath st
    = bind (for_loop (row_body dataTable (length (arrays st))) 0 (Table.length dataTable))
        (fun _ =>
           set_schema (VObj PlainObject (arrow_schema (Table.schema_fields dataTable))) ;;
           logArrowDataStats dataTable ;; ret (length (arrays st)))
        (with_arrays st (arrays st ++ [replicate (Table.length dataTable) VUndefined]))).
  { unfold getArrowData.
    rewrite (bind_Ok _ _ st dataBuffer st []) by (unfold lift; by rewrite Hread).
    rewrite (bind_Ok _ _ st dataTable st []) by (unfold lift; by rewrite Hparse).
    rewrite (bind_Ok _ _ _ _ _ _ (alloc_run _ st)).
    set (st1 := with_arrays st _).
    rewrite (bind_Ok _ _ st1 (Table.length dataTable) st1 []).
    - by destruct (bind _ _ st1) as [[? ?] ?].
    - unfold_M. unfold array_at, st1. simpl.
      rewrite lookup_alloc. simpl. by rewrite length_replicate. }
  split.
  - intros j Hrows Hj Hnone. rewrite Hstart.
    destruct (Table.length dataTable) as [|n] eqn:Hn; [lia|].
    apply bind_Throw. cbn [for_loop]. apply bind_Throw.
    unfold bind, lift.
    rewrite (forEach_field_missing dataTable 0 _ 0 [] j); [done| |done].
    by rewrite length_map.
  - intros Hzero. rewrite Hstart, Hzero. reflexivity.
Qed.

(** *** What a refresh leaves alone *)

Lemma session_kept_refl st : session_kept st st.
Proof. by split_and!. Qed.

Lemma session_kept_arrays st more :
  session_kept st (with_arrays st (arrays st ++ more)).
Proof. split_and!; try done. by eexists. Qed.

Lemma state_after_refresh_result st r :
  state_after (refresh_result st r) = state_after r.
Proof.
  destruct r as [[[[|text|a]|e] st1] calls1]; unfold refresh_result, state_after; simpl.
  - done.
  - by destruct (0 <? String.length text)%nat.
  - by destruct (0 <? length (array_at st1 a))%nat.
  - done.
Qed.

Ltac kept :=
  unfold session_kept, state_after; unfold_M; simpl; split_and!; try done;
  first [ reflexivity | by eexists | rewrite <- app_assoc; by eexists ].

Ltac frame_trivial :=
  split; [kept | intros; unfold state_after; unfold_M; simpl; done].

Lemma getExcelData_frame workbook st :
  session_kept st (state_after (getExcelData Sheet sheet_to_json workbook st))
  /\ _schema (state_after (getExcelData Sheet sheet_to_json workbook st)) = _schema st.
Proof.
  unfold getExcelData. unfold_M. simpl.
  destruct (SheetNames workbook) as [|first others]; simpl.
  - split; [kept | done].
  - destruct (sheet_to_json (Sheets workbook !! first)) as [converted|e]; simpl.
    + destruct (0 <? length converted)%nat; simpl; (split; [kept | done]).
    + split; [kept | done].
Qed.

Lemma getArrowData_frame dataFilePath st :
  session_kept st (state_after (getArrowData readFileSync Table_from dataFilePath st)).
Proof.
  unfold getArrowData. unfold bind at 1. unfold lift at 1.
  destruct (readFileSync dataFilePath) as [dataBuffer|e0]; [|apply session_kept_refl].
  unfold bind at 1. unfold lift at 1.
  destruct (Table_from dataBuffer) as [dataTable|e0]; [|apply session_kept_refl].
  rewrite (bind_Ok _ _ _ _ _ _ (alloc_run _ st)).
  set (st1 := with_arrays st _).
  rewrite (bind_Ok _ _ st1 (length (array_at st1 (length (arrays st)))) st1 []) by done.
  unfold bind at 1.
  pose proof (for_loop_invariant
                (fun s => _uri s = _uri st /\ _fileName s = _fileName st
                          /\ _config s = _config st /\ decoders s = decoders st
                          /\ take (length (arrays st)) (arrays s) = arrays st)
                (row_body dataTable (length (arrays st)))) as Hinv.
  assert (Hbody : forall (i : nat) (s : State),
             _uri s = _uri st /\ _fileName s = _fileName st /\ _config s = _config st
             /\ decoders s = decoders st
             /\ take (length (arrays st)) (arrays s) = arrays st ->
             let s' := state_after (row_body dataTable (length (arrays st)) i s) in
             _uri s' = _uri st /\ _fileName s' = _fileName st /\ _config s' = _config st
             /\ decoders s' = decoders st
             /\ take (length (arrays st)) (arrays s') = arrays st).
  { intros i s Hs. unfold bind at 1. unfold lift at 1.
    destruct (forEach_field dataTable i _ 0 []) as [proto|e1]; [|exact Hs].
    unfold_M. simpl. destruct Hs as (? & ? & ? & ? & Htake).
    split_and!; try done. by rewrite take_insert_ge. }
  specialize (Hinv Hbody (length (array_at st1 (length (arrays st)))) 0 st1).
  destruct (for_loop _ 0 _ st1) as [[[[]|e1] st2] calls2].
  - unfold logArrowDataStats, state_after in *. simpl in *.
    destruct Hinv as (Huri & Hname & Hcfg & Hdec & Htake).
    { split_and!; try done. by rewrite take_app_length. }
    split_and!; try done.
    + exists (drop (length (arrays st)) (arrays st2)).
      rewrite <- Htake at 1. by rewrite take_drop.
    + simpl. by rewrite Hdec.
  - unfold state_after in *. simpl in *.
    destruct Hinv as (Huri & Hname & Hcfg & Hdec & Htake).
    { split_and!; try done. by rewrite take_app_length. }
    split_and!; try done.
    + exists (drop (length (arrays st)) (arrays st2)).
      rewrite <- Htake at 1. by rewrite take_drop.
    + simpl. by rewrite Hdec.
Qed.

Lemma getFileData_frame filePath st :
  session_kept st (state_after (getFileData_ filePath st))
  /\ (case_of (substr filePath (lastIndexOf filePath ".")) [".arrow"] = false ->
      _schema (state_after (getFileData_ filePath st)) = _schema st).
Proof.
  set (Q := fun s =>
              session_kept st s
              /\ (case_of (substr filePath (lastIndexOf filePath ".")) [".arrow"] = false ->
                  _schema s = _schema st)).
  change (Q (state_after (getFileData_ filePath st))).
  unfold getFileData. unfold bind at 1. unfold get_state at 1.
  destruct (negb (existsSync _)); [unfold Q; frame_trivial|]. cbv zeta.
  set (dataFilePath := path_join (path_dirname (fsPath (_uri st))) filePath).
  destruct (case_of _ [".csv"; ".tsv"; ".txt"; ".tab"; ".json"]).
  { unfold bind at 1. unfold lift at 1.
    destruct (readFileSync_utf8 dataFilePath); unfold Q; frame_trivial. }
  destruct (case_of _ [".xls"; ".xlsb"; ".xlsx"; ".xlsm"; ".slk"; ".ods"; ".prn"]).
  { unfold getBinaryExcelData. unfold bind at 1 2. unfold lift at 1.
    destruct (xlsx_readFile dataFilePath _) as [workbook|e]; [|unfold Q; frame_trivial].
    pose proof (getExcelData_frame workbook st) as Hframe. unfold state_after in *.
    destruct (getExcelData Sheet sheet_to_json workbook st) as [[[r|e] st1] calls1];
      unfold Q; unfold_M; simpl in *; tauto. }
  destruct (case_of _ [".dif"; ".xml"; ".html"]).
  { unfold getTextExcelData. unfold bind at 1 2. unfold lift at 1.
    destruct (xlsx_readFile dataFilePath _) as [workbook|e]; [|unfold Q; frame_trivial].
    pose proof (getExcelData_frame workbook st) as Hframe. unfold state_after in *.
    destruct (getExcelData Sheet sheet_to_json workbook st) as [[[r|e] st1] calls1];
      unfold Q; unfold_M; simpl in *; tauto. }
  destruct (case_of _ [".arrow"]) eqn:Harrow.
  { unfold bind at 1.
    pose proof (getArrowData_frame dataFilePath st) as Hframe. unfold state_after in *.
    destruct (getArrowData readFileSync Table_from dataFilePath st)
      as [[[r|e] st1] calls1]; unfold Q; unfold_M; simpl in *;
      (split; [done | congruence]). }
  destruct (case_of _ [".avro"]).
  { rewrite (bind_Ok _ _ _ _ _ _ (getAvroData_run dataFilePath st)).
    unfold Q; frame_trivial. }
  destruct (case_of _ [".parquet"]); unfold Q; frame_trivial.
Qed.

(** X12. A call of [refresh] keeps the identity and the view configuration
    of the session, and it never writes to an array that existed before the
    call nor drops a subscribed decoder: the rows handed out by earlier
    refreshes are as they were. *)
Theorem refresh_keeps_session st :
  session_kept st (state_after (refresh_ st))
  /\ (forall r a, arrays st !! r = Some a ->
                  arrays (state_after (refresh_ st)) !! r = Some a).
Proof.
  rewrite (refresh_unfold path_dirname path_join existsSync readFileSync_utf8
             readFileSync Sheet xlsx_readFile sheet_to_json Table_from),
    state_after_refresh_result.
  destruct (getFileData_frame (_fileName st) st) as [Hkept _].
  split; [exact Hkept|]. intros r a Hr.
  destruct Hkept as (_ & _ & _ & Hprefix & _).
  by apply (prefix_lookup_Some _ _ _ _ Hr).
Qed.

(** X13. Only the columnar decoder writes the schema of the session: after
    a [refresh] of a file whose extension is not [.arrow] the schema is the
    one the session had before, whatever that refresh did. *)
Theorem refresh_keeps_schema_unless_arrow st :
  case_of (substr (_fileName st) (lastIndexOf (_fileName st) ".")) [".arrow"] = false ->
  _schema (state_after (refresh_ st)) = _schema st.
Proof.
  intros Hext.
  rewrite (refresh_unfold path_dirname path_join existsSync readFileSync_utf8
             readFileSync Sheet xlsx_readFile sheet_to_json Table_from),
    state_after_refresh_result.
  by apply getFileData_frame.
Qed.

(** X14. A call of [refresh] posts at most one message to the webview, and
    the decoders that [getFileData] runs post none. *)
Theorem refresh_posts_at_most_one_message st :
  length (posted (calls_of (refresh_ st))) <= 1
  /\ (forall filePath, posted (calls_of (getFileData_ filePath st)) = []).
Proof.
  pose proof (getFileData_posts_nothing path_dirname path_join existsSync
                readFileSync_utf8 readFileSync Sheet xlsx_readFile sheet_to_json
                Table_from) as Hquiet.
  split; [|intros filePath; apply Hquiet].
  rewrite (refresh_unfold path_dirname path_join existsSync readFileSync_utf8
             readFileSync Sheet xlsx_readFile sheet_to_json Table_from).
  rewrite (posted_refresh_result _ _ (Hquiet (_fileName st) st)).
  destruct (getFileData_ (_fileName st) st) as [[[[|text|a]|e] st1] calls1]; simpl.
  - lia.
  - destruct (0 <? String.length text)%nat; simpl; lia.
  - destruct (0 <? length (array_at st1 a))%nat; simpl; lia.
  - lia.
Qed.

(** *** Messages from the webview *)

Local Abbreviation onDidReceiveMessage_ :=
  (onDidReceiveMessage path_dirname path_join existsSync readFileSync_utf8
     readFileSync Sheet xlsx_readFile sheet_to_json Table_from).

(** X15. A [config] message replaces the view configuration of the session
    and nothing else, and calls nothing of the host; the refresh message of
    the next [refresh] command carries that configuration back.  A message
    with another command is ignored. *)
Theorem config_command_round_trip st config text :
  existsSync (resolve st (_fileName st)) = true ->
  case_of (substr (_fileName st) (lastIndexOf (_fileName st) "."))
    [".csv"; ".tsv"; ".txt"; ".tab"; ".json"] = true ->
  readFileSync_utf8 (resolve st (_fileName st)) = Ok text ->
  text <> "" ->
  onDidReceiveMessage_ (ConfigCommand config) st = (Ok tt, with_config st config, [])
  /\ posted (calls_of (onDidReceiveMessage_ RefreshCommand (with_config st config)))
     = [RefreshMessage (_fileName st) (uri_toString (_uri st)) config (_schema st)
          (VStr text)]
  /\ (forall command, onDidReceiveMessage_ (OtherCommand command) st = (Ok tt, st, [])).
Proof.
  intros Hex Hext Hread Hne. split_and!.
  - reflexivity.
  - simpl onDidReceiveMessage.
    rewrite (refresh_unfold path_dirname path_join existsSync readFileSync_utf8
               readFileSync Sheet xlsx_readFile sheet_to_json Table_from).
    change (_fileName (with_config st config)) with (_fileName st).
    rewrite (getFileData_text path_dirname path_join existsSync readFileSync_utf8
               readFileSync Sheet xlsx_readFile sheet_to_json Table_from
               _ (with_config st config) text Hex Hext Hread).
    rewrite posted_refresh_result by done.
    destruct text; [done|]. reflexivity.
  - reflexivity.
Qed.

End Dispatch.

(** ** Several block decoders at once *)

Lemma dataRows_insert (l : list AvroClosure) d c c' :
  l !! d = Some c -> dataRows c' = dataRows c ->
  dataRows <$> <[d := c']> l = dataRows <$> l.
Proof.
  intros Hd Hsame. rewrite list_fmap_insert, Hsame.
  apply list_insert_id. by rewrite list_lookup_fmap, Hd.
Qed.

Lemma closures_distinct st d d' c c' :
  closures_ok st -> decoders st !! d = Some c -> decoders st !! d' = Some c' ->
  d <> d' -> dataRows c <> dataRows c'.
Proof.
  intros [Hnd _] Hd Hd' Hne Heq. apply Hne.
  apply (NoDup_lookup _ d d' (dataRows c) Hnd).
  - by rewrite list_lookup_fmap, Hd.
  - by rewrite list_lookup_fmap, Hd', Heq.
Qed.

Lemma emit_closures_ok d ev st :
  closures_ok st -> closures_ok (state_after (emit d ev st)).
Proof.
  intros [Hnd Hrefs]. unfold closures_ok, refs_allocated in *.
  destruct ev as [type|data|]; simpl.
  - unfold on_metadata. unfold_M. simpl.
    destruct (decoders st !! d) as [c|] eqn:Hd; simpl; [|done].
    rewrite (dataRows_insert _ _ c) by done. split; [done|].
    apply Forall_insert; [done|]. simpl. by apply (Forall_lookup_1 _ _ _ _ Hrefs Hd).
  - unfold on_data. unfold_M. simpl.
    destruct (decoders st !! d) as [c|] eqn:Hd; simpl; [|done].
    split; [done|]. by rewrite length_insert.
  - unfold on_end. unfold_M. simpl.
    destruct (decoders st !! d) as [c|] eqn:Hd; simpl; [|done].
    destruct (map_outcome flattenObject (array_at st (dataRows c))) as [flat|e];
      simpl; [|done].
    unfold logAvroDataStats. simpl.
    rewrite (dataRows_insert _ _ c) by done. split; [done|].
    rewrite length_app. simpl. apply Forall_insert.
    + eapply Forall_impl; [exact Hrefs|]. intros ? ?. simpl in *. lia.
    + simpl. pose proof (Forall_lookup_1 _ _ _ _ Hrefs Hd). simpl in *. lia.
Qed.

Lemma getAvroData_closures_ok dataFilePath st :
  closures_ok st -> closures_ok (state_after (getAvroData dataFilePath st)).
Proof.
  intros [Hnd Hrefs]. rewrite getAvroData_run. unfold state_after, closures_ok,
    refs_allocated in *. simpl. split.
  - rewrite fmap_app. simpl. apply NoDup_app. split_and!; [done| |apply NoDup_singleton].
    intros x Hx Hx'. apply list_elem_of_singleton in Hx'. subst x.
    apply list_elem_of_fmap in Hx as (c & Hc & Hin).
    pose proof (proj1 (Forall_forall _ _) Hrefs c Hin). simpl in *. lia.
  - rewrite length_app. simpl. apply Forall_app. split.
    + eapply Forall_impl; [exact Hrefs|]. intros ? ?. simpl in *. lia.
    + constructor; [simpl; lia | constructor].
Qed.

(** X16. Block decoders subscribed by different calls do not interfere:
    whatever event one of them delivers, the rows collected so far for
    another one and its listeners' variables are unchanged, and the
    separation of the decoders is kept (also by a new [getAvroData]). *)
Theorem block_decoders_isolated st d d' c c' ev :
  closures_ok st ->
  decoders st !! d = Some c -> decoders st !! d' = Some c' -> d <> d' ->
  array_at (state_after (emit d ev st)) (dataRows c') = array_at st (dataRows c')
  /\ decoders (state_after (emit d ev st)) !! d' = Some c'
  /\ closures_ok (state_after (emit d ev st))
  /\ (forall dataFilePath, closures_ok (state_after (getAvroData dataFilePath st))).
Proof.
  intros Hok Hd Hd' Hne.
  pose proof (closures_distinct _ _ _ _ _ Hok Hd Hd' Hne) as Hrows.
  split_and!; [| |by apply emit_closures_ok|intros; by apply getAvroData_closures_ok].
  - destruct ev as [type|data|]; simpl.
    + unfold on_metadata. unfold_M. simpl. by rewrite Hd.
    + unfold on_data. unfold_M. simpl. rewrite Hd. unfold array_at. simpl.
      by rewrite list_lookup_insert_ne.
    + unfold on_end. unfold_M. simpl. rewrite Hd. simpl.
      destruct (map_outcome flattenObject (array_at st (dataRows c))) as [flat|e];
        simpl; [|done].
      unfold logAvroDataStats, array_at. simpl. rewrite lookup_app_l; [done|].
      destruct Hok as [_ Hrefs].
      exact (Forall_lookup_1 _ _ _ _ Hrefs Hd').
  - destruct ev as [type|data|]; simpl.
    + unfold on_metadata. unfold_M. simpl. rewrite Hd. simpl.
      by rewrite list_lookup_insert_ne.
    + unfold on_data. unfold_M. simpl. by rewrite Hd.
    + unfold on_end. unfold_M. simpl. rewrite Hd. simpl.
      destruct (map_outcome flattenObject (array_at st (dataRows c))) as [flat|e];
        simpl; [|done].
      unfold logAvroDataStats. simpl. by rewrite list_lookup_insert_ne.
Qed.

(** ** The type table and repeated field names *)



(** ** The second sample workspace *)

Lemma getFileData_dispatches_on_last_dot_witness :
  Shelf.getFileData "report.v2.csv" (Sample.session "report.v2.csv")
  = (Ok (DataText "n,m"), Sample.session "report.v2.csv", []).
Proof.
  apply (getFileData_dispatches_on_last_dot
           Sample.path_dirname Sample.path_join Shelf.existsSync
           Shelf.readFileSync_utf8 Shelf.readFileSync Sample.Sheet
           Shelf.xlsx_readFile Sample.sheet_to_json Shelf.Table_from
           "report.v2" "csv" (Sample.session "report.v2.csv") "n,m"); reflexivity.
Defined.

Lemma getFileData_name_without_dot_witness :
  Shelf.getFileData "README" (Sample.session "README")
  = (Ok DataNull, Sample.session "README", []).
Proof.
  apply (getFileData_name_without_dot
           Sample.path_dirname Sample.path_join Shelf.existsSync
           Shelf.readFileSync_utf8 Shelf.readFileSync Sample.Sheet
           Shelf.xlsx_readFile Sample.sheet_to_json Shelf.Table_from
           "README" (Sample.session "README")); reflexivity.
Defined.

Lemma refresh_spreadsheet_sends_first_sheet_witness :
  state_after (Shelf.refresh (Sample.session "legacy.html"))
  = with_arrays (Sample.session "legacy.html")
      ([] ++ [[]; [VObj PlainObject [("x", VNum 1)]; VObj PlainObject [("x", VNum 2)]]])
  /\ posted (calls_of (Shelf.refresh (Sample.session "legacy.html")))
     = [RefreshMessage "legacy.html" "file:///data/legacy.html" (VObj PlainObject [])
          VUndefined
          (VArr [VObj PlainObject [("x", VNum 1)]; VObj PlainObject [("x", VNum 2)]])].
Proof.
  apply (refresh_spreadsheet_sends_first_sheet
           Sample.path_dirname Sample.path_join Shelf.existsSync
           Shelf.readFileSync_utf8 Shelf.readFileSync Sample.Sheet
           Shelf.xlsx_readFile Sample.sheet_to_json Shelf.Table_from
           (Sample.session "legacy.html") Sample.book "First" ["Second"]).
  - reflexivity.
  - right. split; reflexivity.
  - reflexivity.
  - reflexivity.
  - discriminate.
Defined.

Lemma refresh_parquet_shows_notice_witness :
  Shelf.refresh (Sample.session "p.parquet")
  = (Ok tt, Sample.session "p.parquet",
     [Reveal; LogMessage LogLevel.Debug "refresh(): file:";
      ShowInformationMessage "Parquet data format support coming soon!";
      LogMessage LogLevel.Error ("refresh(): " +:+ error_message null_length);
      PostMessage (ErrorMessage null_length)]).
Proof.
  apply (refresh_parquet_shows_notice
           Sample.path_dirname Sample.path_join Shelf.existsSync
           Shelf.readFileSync_utf8 Shelf.readFileSync Sample.Sheet
           Shelf.xlsx_readFile Sample.sheet_to_json Shelf.Table_from
           (Sample.session "p.parquet")); reflexivity.
Defined.

Lemma refresh_avro_subscribes_and_end_posts_witness :
  Shelf.refresh (Sample.session "r.avro")
  = (Ok tt,
     with_decoders (with_arrays (Sample.session "r.avro") ([] ++ [[]; []]))
       ([] ++ [{| dataRows := 0; dataSchema := VObj PlainObject []; rows := 1 |}]),
     [Reveal; LogMessage LogLevel.Debug "refresh(): file:";
      LogMessage LogLevel.Debug "getFileData(): Avro data:"])
  /\ calls_of (emit 0 OnEnd (state_after (Shelf.refresh (Sample.session "r.avro"))))
     = [PostMessage (RefreshMessage "r.avro" "file:///data/r.avro"
                       (VObj PlainObject []) VUndefined (VArr []))].
Proof.
  apply (refresh_avro_subscribes_and_end_posts
           Sample.path_dirname Sample.path_join Shelf.existsSync
           Shelf.readFileSync_utf8 Shelf.readFileSync Sample.Sheet
           Shelf.xlsx_readFile Sample.sheet_to_json Shelf.Table_from
           (Sample.session "r.avro")); reflexivity.
Defined.

Lemma end_listener_throws_on_null_row_witness :
  let st := state_after (emit 0 (OnData VNull)
                           (state_after (Shelf.refresh (Sample.session "r.avro")))) in
  emit 0 OnEnd st = (Throw null_to_object, st, []).
Proof.
  apply (end_listener_throws_on_null_row 0 _
           {| dataRows := 0; dataSchema := VObj PlainObject []; rows := 1 |}).
  - reflexivity.
  - left. vm_compute. apply list_elem_of_singleton. reflexivity.
Defined.

Lemma refresh_arrow_sends_rows_and_schema_witness :
  _schema (state_after (Shelf.refresh (Sample.session "t.arrow")))
  = VObj PlainObject (arrow_schema (Table.schema_fields Sample.table))
  /\ posted (calls_of (Shelf.refresh (Sample.session "t.arrow")))
     = [RefreshMessage "t.arrow" "file:///data/t.arrow" (VObj PlainObject [])
          (VObj PlainObject (arrow_schema (Table.schema_fields Sample.table)))
          (VArr ((fun i => VObj PlainObject (Object_assign [] (row_entries Sample.table i)))
                   <$> seq 0 3))].
Proof.
  apply (refresh_arrow_sends_rows_and_schema
           Sample.path_dirname Sample.path_join Shelf.existsSync
           Shelf.readFileSync_utf8 Shelf.readFileSync Sample.Sheet
           Shelf.xlsx_readFile Sample.sheet_to_json Shelf.Table_from
           (Sample.session "t.arrow") [Byte.x41] Sample.table).
  - reflexivity.
  - reflexivity.
  - reflexivity.
  - reflexivity.
  - apply sample_table_columns.
Defined.

Lemma getArrowData_failure_keeps_schema_witness :
  let st' := state_after (getArrowData Shelf.readFileSync Shelf.Table_from
                            "/data/torn.arrow" (Sample.session "torn.arrow")) in
  _schema st' = VUndefined /\ _config st' = VObj PlainObject []
  /\ _fileName st' = "torn.arrow"
  /\ _uri st' = {| fsPath := "/data/torn.arrow"; uri_toString := "file:///data/torn.arrow" |}.
Proof.
  apply (getArrowData_failure_keeps_schema Shelf.readFileSync Shelf.Table_from
           "/data/torn.arrow" (Sample.session "torn.arrow") null_get _ []).
  reflexivity.
Defined.

Lemma getArrowData_missing_column_witness :
  getArrowData Shelf.readFileSync Shelf.Table_from "/data/torn.arrow"
    (Sample.session "torn.arrow")
  = (Throw null_get,
     with_arrays (Sample.session "torn.arrow") ([] ++ [replicate 2 VUndefined]), [])
  /\ getArrowData Shelf.readFileSync Shelf.Table_from "/data/none.arrow"
       (Sample.session "none.arrow")
     = (Ok 0,
        with_schema (with_arrays (Sample.session "none.arrow") ([] ++ [[]]))
          (VObj PlainObject [("a", VStr "integer")]),
        []).
Proof.
  split.
  - apply (proj1 (getArrowData_missing_column Shelf.readFileSync Shelf.Table_from
                    "/data/torn.arrow" (Sample.session "torn.arrow") [Byte.x00]
                    Shelf.torn_table eq_refl eq_refl) 1).
    + simpl. lia.
    + simpl. lia.
    + reflexivity.
  - apply (proj2 (getArrowData_missing_column Shelf.readFileSync Shelf.Table_from
                    "/data/none.arrow" (Sample.session "none.arrow") [Byte.x30]
                    Shelf.empty_table eq_refl eq_refl)).
    reflexivity.
Defined.

Lemma refresh_keeps_schema_unless_arrow_witness :
  _schema (state_after (Shelf.refresh
                          (with_schema (Sample.session "legacy.html") (VStr "kept"))))
  = VStr "kept".
Proof.
  apply (refresh_keeps_schema_unless_arrow
           Sample.path_dirname Sample.path_join Shelf.existsSync
           Shelf.readFileSync_utf8 Shelf.readFileSync Sample.Sheet
           Shelf.xlsx_readFile Sample.sheet_to_json Shelf.Table_from
           (with_schema (Sample.session "legacy.html") (VStr "kept"))).
  reflexivity.
Defined.

Lemma config_command_round_trip_witness :
  let st := Sample.session "report.v2.csv" in
  let config := VObj PlainObject [("sort", VStr "n")] in
  Shelf.onDidReceiveMessage (ConfigCommand config) st = (Ok tt, with_config st config, [])
  /\ posted (calls_of (Shelf.onDidReceiveMessage RefreshCommand (with_config st config)))
     = [RefreshMessage "report.v2.csv" "file:///data/report.v2.csv" config VUndefined
          (VStr "n,m")]
  /\ (forall command, Shelf.onDidReceiveMessage (OtherCommand command) st = (Ok tt, st, [])).
Proof.
  apply (config_command_round_trip
           Sample.path_dirname Sample.path_join Shelf.existsSync
           Shelf.readFileSync_utf8 Shelf.readFileSync Sample.Sheet
           Shelf.xlsx_readFile Sample.sheet_to_json Shelf.Table_from
           (Sample.session "report.v2.csv") (VObj PlainObject [("sort", VStr "n")]) "n,m").
  - reflexivity.
  - reflexivity.
  - reflexivity.
  - discriminate.
Defined.

Lemma two_decoders_ok : closures_ok Shelf.two_decoders.
Proof.
  split.
  - vm_compute. apply NoDup_cons. split.
    + rewrite list_elem_of_singleton. lia.
    + apply NoDup_singleton.
  - unfold refs_allocated. vm_compute. repeat constructor.
Qed.

Lemma block_decoders_isolated_witness :
  let ev := OnData (VObj PlainObject [("id", VNum 1)]) in
  let second := {| dataRows := 2; dataSchema := VObj PlainObject []; rows := 3 |} in
  array_at (state_after (emit 0 ev Shelf.two_decoders)) 2 = array_at Shelf.two_decoders 2
  /\ decoders (state_after (emit 0 ev Shelf.two_decoders)) !! 1 = Some second
  /\ closures_ok (state_after (emit 0 ev Shelf.two_decoders))
  /\ (forall dataFilePath,
         closures_ok (state_after (getAvroData dataFilePath Shelf.two_decoders))).
Proof.
  apply (block_decoders_isolated Shelf.two_decoders 0 1
           {| dataRows := 0; dataSchema := VObj PlainObject []; rows := 1 |}
           {| dataRows := 2; dataSchema := VObj PlainObject []; rows := 3 |}).
  - apply two_decoders_ok.
  - reflexivity.
  - reflexivity.
  - lia.
Defined.

(** ** Disposal *)

Lemma dispose_while_snoc fuel ds item :
  dispose_while (S fuel) (ds ++ [item])
  = match dispose_while fuel ds with
    | Some (calls, remaining) =>
        Some (match item with
              | Some i => DisposeItem i :: calls
              | None => calls
              end, remaining)
    | None => None
    end.
Proof.
  assert (Hlast : List.last (ds ++ [item]) None = item) by apply last_last.
  assert (Hremove : removelast (ds ++ [item]) = ds) by apply removelast_last.
  destruct (ds ++ [item]) as [|x rest] eqn:Hds.
  - by destruct ds.
  - cbn [dispose_while]. by rewrite Hlast, Hremove.
Qed.

(** X19. With fuel for one turn per registered entry, the loop of [dispose]
    ends with no entry left, after disposing every entry that is not
    [undefined] exactly once, the last registered first; [dispose] does so
    after removing the preview from the manager and disposing the panel. *)
Theorem dispose_releases_in_reverse _disposables fuel :
  length _disposables <= fuel ->
  dispose fuel _disposables
  = Some (RemovePreview :: DisposePanel
            :: omap (fun entry => DisposeItem <$> entry) (reverse _disposables),
          []).
Proof.
  assert (Hloop : forall ds fuel', length ds <= fuel' ->
            dispose_while fuel' ds
            = Some (omap (fun entry => DisposeItem <$> entry) (reverse ds), [])).
  { induction ds as [|item ds IH] using rev_ind; intros fuel' Hfuel.
    - by destruct fuel'.
    - rewrite length_app in Hfuel. simpl in Hfuel.
      destruct fuel' as [|fuel']; [lia|].
      rewrite dispose_while_snoc, IH by lia.
      rewrite reverse_app. simpl. by destruct item. }
  intros Hfuel. unfold dispose. by rewrite Hloop.
Qed.

Lemma dispose_releases_in_reverse_witness :
  dispose 3 [Some 1; None; Some 2]
  = Some ([RemovePreview; DisposePanel; DisposeItem 2; DisposeItem 1], []).
Proof. apply (dispose_releases_in_reverse [Some 1; None; Some 2] 3). simpl. lia. Defined.
